(** * The TLE codec of python-sgp4 (sgp4_vec/io.py) and the Satellite record
      (sgp4/model.py), embedded in Rocq.

    Python values are modelled as follows.
    - A [str] is a list of characters; a character is one of the code points
      U+0000 .. U+00FF (Rocq's 8-bit [ascii]), with the classification Python 3
      gives these code points ([str.isdigit], [str.isspace]).
    - An [int] is a [Z].
    - A [float] is an IEEE 754 binary64 number, [SpecFloat.spec_float] with
      precision 53 and maximal exponent 1024; the arithmetic is the correctly
      rounded arithmetic of the Standard Library's specification of floats.
    - Code that can raise returns a [result]; the exception carries its class
      and what its message says. *)

From Stdlib Require Import ZArith Ascii String List Bool Lia.
From Stdlib Require Import DecimalString.
From Stdlib Require Import SpecFloat.
Import ListNotations.

Open Scope Z_scope.

(* ================================================================== *)
(** * Exceptions and the error monad *)
(* ================================================================== *)

Definition str := list ascii.

(** A string literal of the source. *)
Definition L (s : string) : str := list_ascii_of_string s.

Inductive exn_class :=
| ValueError | TypeError | OverflowError | IndexError | ZeroDivisionError.

(** What an exception says: a text the source builds itself, or the fixed
    message of a builtin, kept symbolic. *)
Inductive detail :=
| Text (msg : str)                (* raised by the source with this text *)
| BadIntLiteral (lit : str)       (* invalid literal for int() with base 10 *)
| BadFloatLiteral (lit : str)     (* could not convert string to float *)
| MathDomain                      (* math domain error *)
| MathRange                       (* math range error *)
| FloatNaNToInt                   (* cannot convert float NaN to integer *)
| FloatInfToInt                   (* cannot convert float infinity to integer *)
| NotIterable                     (* can only assign an iterable *)
| ListAssignment                  (* list assignment index out of range *)
| DateRange                       (* a datetime field is out of range *)
| DivisionByZero                  (* float divmod() *)
| ZeroToNegativePower             (* 0.0 cannot be raised to a negative power *)
| ResultOutOfRange.               (* Numerical result out of range *)

Inductive exn := Raise (c : exn_class) (d : detail).

Inductive result (A : Type) :=
| OK (a : A)
| Error (e : exn).
Arguments OK {A} a.
Arguments Error {A} e.

Definition bind {A B} (r : result A) (k : A -> result B) : result B :=
  match r with
  | OK a => k a
  | Error e => Error e
  end.

Notation "x <- r ;; k" := (bind r (fun x => k))
  (at level 61, r at next level, right associativity).
Notation "' p <- r ;; k" := (bind r (fun x => let p := x in k))
  (at level 61, p pattern, r at next level, right associativity).

Definition is_error {A} (r : result A) : bool :=
  match r with OK _ => false | Error _ => true end.

(* ================================================================== *)
(** * Python strings *)
(* ================================================================== *)

Definition code (c : ascii) : nat := nat_of_ascii c.

(** The ten ASCII decimal digits, and their value. *)
Definition is_ascii_digit (c : ascii) : bool :=
  ((48 <=? code c) && (code c <=? 57))%nat.

Definition digit_value (c : ascii) : Z := Z.of_nat (code c) - 48.

(** [c.isdigit()] for a single character. Among U+0000..U+00FF Python counts
    as digits the ten decimal digits and the superscripts U+00B2, U+00B3 and
    U+00B9. *)
Definition char_isdigit (c : ascii) : bool :=
  is_ascii_digit c ||
  ((code c =? 178) || (code c =? 179) || (code c =? 185))%nat.

(** [s.isdigit()]: every character is a digit and there is at least one. *)
Definition isdigit (s : str) : bool :=
  match s with
  | [] => false
  | _ => forallb char_isdigit s
  end.

(** [c.isspace()]: the whitespace of [str.strip]. *)
Definition char_isspace (c : ascii) : bool :=
  ((9 <=? code c) && (code c <=? 13) ||
   (28 <=? code c) && (code c <=? 32) ||
   (code c =? 133) || (code c =? 160))%nat.

(** [s.rstrip()]. *)
Fixpoint rstrip (s : str) : str :=
  match s with
  | [] => []
  | c :: t =>
      match rstrip t with
      | [] => if char_isspace c then [] else [c]
      | t' => c :: t'
      end
  end.

(** [s[a:b]] for literal bounds [0 <= a <= b]. *)
Definition slice {A} (s : list A) (a b : nat) : list A :=
  firstn (b - a) (skipn a s).

(** [s[a:]] and [s[-n:]]. *)
Definition slice_from {A} (s : list A) (a : nat) : list A := skipn a s.
Definition last_n {A} (s : list A) (n : nat) : list A :=
  skipn (length s - n) s.

Definition str_eqb (a b : str) : bool :=
  if list_eq_dec ascii_dec a b then true else false.

(** [s[i] == c], used where the source has already checked [i < len(s)]. *)
Definition char_is (s : str) (i : nat) (c : ascii) : bool :=
  match nth_error s i with
  | Some x => Ascii.eqb x c
  | None => false
  end.

Definition startswith (s p : str) : bool :=
  str_eqb (firstn (length p) s) p && (length p <=? length s)%nat.

(** [s.ljust(n)]. *)
Definition ljust (s : str) (n : nat) : str :=
  s ++ repeat " "%char (n - length s).

(** [s.replace(a, b)] for single characters [a] and [b]. *)
Definition replace (a b : ascii) (s : str) : str :=
  map (fun c => if Ascii.eqb c a then b else c) s.

(** [s.split(".")[-1]]: what follows the last period, or all of [s]. *)
Fixpoint after_last_dot (s : str) : str :=
  match s with
  | [] => []
  | c :: t =>
      if existsb (Ascii.eqb ".") t then after_last_dot t
      else if Ascii.eqb c "." then t else s
  end.

(** [str(n)] for an int. *)
Definition str_of_int (n : Z) : str :=
  L (NilZero.string_of_int (Z.to_int n)).

(** ** [int(s)] *)

(** The whitespace the number parsers skip: the ASCII whitespace, and the two
    non-ASCII spaces U+0085 and U+00A0, which are turned into blanks first. *)
Definition num_space (c : ascii) : bool :=
  ((9 <=? code c) && (code c <=? 13) || (code c =? 32) ||
   (code c =? 133) || (code c =? 160))%nat.

Fixpoint lstrip_num (s : str) : str :=
  match s with
  | c :: t => if num_space c then lstrip_num t else s
  | [] => []
  end.

Definition strip_num (s : str) : str := rev (lstrip_num (rev (lstrip_num s))).

(** Digits with single underscores between them: [acc] is the value read so
    far, [prev_digit] says that the previous character was a digit. The result
    is the value and the number of digits. *)
Fixpoint read_digits (s : str) (prev_digit : bool) (acc : Z) (n : nat)
  : option (Z * nat) :=
  match s with
  | [] => if prev_digit then Some (acc, n) else None
  | c :: t =>
      if is_ascii_digit c then read_digits t true (10 * acc + digit_value c) (S n)
      else if Ascii.eqb c "_" then
        if prev_digit then read_digits t false acc n else None
      else None
  end.

Definition split_sign (s : str) : bool * str :=
  match s with
  | c :: t =>
      if Ascii.eqb c "-" then (true, t)
      else if Ascii.eqb c "+" then (false, t)
      else (false, s)
  | [] => (false, [])
  end.

Definition int_of_str (s : str) : result Z :=
  let '(neg, body) := split_sign (strip_num s) in
  match read_digits body false 0 0 with
  | Some (v, _) => OK (if neg then - v else v)
  | None => Error (Raise ValueError (BadIntLiteral s))
  end.

(** ** Formatting an int: [format(n, "{fill}{align}{width}d")] *)

Inductive align := AlignRight | AlignSign.

Definition pad (fill : ascii) (al : align) (width : nat) (sign body : str) : str :=
  let k := (width - (length sign + length body))%nat in
  match al with
  | AlignRight => repeat fill k ++ sign ++ body
  | AlignSign => sign ++ repeat fill k ++ body
  end.

Definition format_d (fill : ascii) (al : align) (width : nat) (n : Z) : str :=
  pad fill al width (if n <? 0 then L "-" else []) (str_of_int (Z.abs n)).

(* ================================================================== *)
(** * Python floats: IEEE 754 binary64 *)
(* ================================================================== *)

Definition float := spec_float.

Definition prec : Z := 53.
Definition emax : Z := 1024.

Definition fadd : float -> float -> float := SFadd prec emax.
Definition fsub : float -> float -> float := SFsub prec emax.
Definition fmul : float -> float -> float := SFmul prec emax.
Definition fdiv : float -> float -> float := SFdiv prec emax.
Definition fabs : float -> float := SFabs.
Definition fneg : float -> float := SFopp.
Definition flt : float -> float -> bool := SFltb.
Definition feq : float -> float -> bool := SFeqb.

Definition is_nan (x : float) : bool :=
  match x with S754_nan => true | _ => false end.
Definition is_inf (x : float) : bool :=
  match x with S754_infinity _ => true | _ => false end.
Definition is_finite (x : float) : bool := negb (is_nan x) && negb (is_inf x).
Definition sign_bit (x : float) : bool :=
  match x with
  | S754_zero s | S754_infinity s | S754_finite s _ _ => s
  | S754_nan => false
  end.

(** The float nearest to [n / d] (ties to even), for [0 <= n] and [0 < d],
    with sign [neg]: this is how Python rounds [int / int] and a decimal
    literal. *)
Definition float_of_ratio (neg : bool) (n d : Z) : float :=
  match n with
  | Z0 => S754_zero neg
  | _ =>
      let '(q, e, l) := SFdiv_core_binary prec emax n 0 d 0 in
      binary_round_aux prec emax neg q e l
  end.

(** [a / b] for two ints, [b] not zero. *)
Definition int_truediv (a b : Z) : float :=
  float_of_ratio (xorb (a <? 0) (b <? 0)) (Z.abs a) (Z.abs b).

(** [float(n)] for an int. *)
Definition float_of_int (n : Z) : float :=
  float_of_ratio (n <? 0) (Z.abs n) 1.

(** The float nearest to [m * 10^e], with sign [neg]. *)
Definition float_of_decimal (neg : bool) (m e : Z) : float :=
  if 0 <=? e then float_of_ratio neg (m * 10 ^ e) 1
  else float_of_ratio neg m (10 ^ (- e)).

Definition f0 : float := S754_zero false.
Definition f1 : float := float_of_int 1.

(** [math.pi], that is 0x1.921fb54442d18p+1. *)
Definition pi : float := S754_finite false 7074237752028440 (-51).

(** ** [float(s)] *)

Definition lower (c : ascii) : ascii :=
  if ((65 <=? code c) && (code c <=? 90))%nat
  then ascii_of_nat (code c + 32) else c.

(** Underscores may stand between two digits only; they are dropped. *)
Fixpoint drop_underscores (s : str) (prev : option ascii) : option str :=
  match s with
  | [] =>
      match prev with
      | Some p => if Ascii.eqb p "_" then None else Some []
      | None => Some []
      end
  | c :: t =>
      let prev_is p := match prev with Some x => p x | None => false end in
      if Ascii.eqb c "_" then
        if prev_is is_ascii_digit then drop_underscores t (Some c) else None
      else if prev_is (Ascii.eqb "_") && negb (is_ascii_digit c) then None
      else option_map (cons c) (drop_underscores t (Some c))
  end.

(** The longest prefix of digits: its value after [acc], the number of digits
    read, and the rest. *)
Fixpoint take_digits (s : str) (acc : Z) (n : nat) : Z * nat * str :=
  match s with
  | c :: t =>
      if is_ascii_digit c then take_digits t (10 * acc + digit_value c) (S n)
      else (acc, n, s)
  | [] => (acc, n, [])
  end.

(** The exponent part: nothing, or [e] or [E], an optional sign and at least
    one digit, up to the end of the string. *)
Definition read_exponent (s : str) : option Z :=
  match s with
  | [] => Some 0
  | c :: t =>
      if Ascii.eqb (lower c) "e" then
        let '(neg, body) := split_sign t in
        match take_digits body 0 0 with
        | (v, S _, []) => Some (if neg then - v else v)
        | _ => None
        end
      else None
  end.

(** A decimal numeral without sign: digits, an optional period and digits, at
    least one digit in all, and an optional exponent. *)
Definition read_decimal (neg : bool) (s : str) : option float :=
  let '(i, ni, rest) := take_digits s 0 0 in
  let '(m, nf, rest') :=
    match rest with
    | c :: t =>
        if Ascii.eqb c "." then
          let '(m, nf, r) := take_digits t i 0 in (m, nf, r)
        else (i, 0%nat, rest)
    | [] => (i, 0%nat, rest)
    end in
  match (ni + nf)%nat with
  | O => None
  | _ =>
      match read_exponent rest' with
      | Some e => Some (float_of_decimal neg m (e - Z.of_nat nf))
      | None => None
      end
  end.

Definition read_float (s : str) : option float :=
  let '(neg, body) := split_sign s in
  let word := map lower body in
  if str_eqb word (L "inf") || str_eqb word (L "infinity")
  then Some (S754_infinity neg)
  else if str_eqb word (L "nan") then Some S754_nan
  else match drop_underscores body None with
       | Some digits => read_decimal neg digits
       | None => None
       end.

Definition float_of_str (s : str) : result float :=
  match strip_num s with
  | [] => Error (Raise ValueError (BadFloatLiteral s))
  | t =>
      match read_float t with
      | Some x => OK x
      | None => Error (Raise ValueError (BadFloatLiteral s))
      end
  end.

(** ** Truncation, floor, remainder *)

(** The integer part of a finite float, towards zero, and whether a
    fractional part was dropped. *)
Definition trunc_frac (m : positive) (e : Z) : Z * bool :=
  if 0 <=? e then (Zpos m * 2 ^ e, false)
  else (Zpos m / 2 ^ (- e), negb (Zpos m mod 2 ^ (- e) =? 0)).

(** [int(x)]. *)
Definition int_of_float (x : float) : result Z :=
  match x with
  | S754_nan => Error (Raise ValueError FloatNaNToInt)
  | S754_infinity _ => Error (Raise OverflowError FloatInfToInt)
  | S754_zero _ => OK 0
  | S754_finite s m e =>
      let '(q, _) := trunc_frac m e in OK (if s then - q else q)
  end.

(** C's [floor]. *)
Definition ffloor (x : float) : float :=
  match x with
  | S754_finite s m e =>
      let '(q, frac) := trunc_frac m e in
      if s then binary_normalize prec emax (- (if frac then q + 1 else q)) 0 true
      else binary_normalize prec emax q 0 false
  | _ => x
  end.

(** C's [fmod]: [x - n * y] for the integer [n] that is [x / y] rounded
    towards zero; the result is exact and has the sign of [x]. *)
Definition fmod (x y : float) : float :=
  match x, y with
  | S754_nan, _ | _, S754_nan => S754_nan
  | S754_infinity _, _ => S754_nan
  | _, S754_zero _ => S754_nan
  | _, S754_infinity _ => x
  | S754_zero _, _ => x
  | S754_finite sx mx ex, S754_finite _ my ey =>
      let e := Z.min ex ey in
      let X := Zpos mx * 2 ^ (ex - e) in
      let Y := Zpos my * 2 ^ (ey - e) in
      let r := X mod Y in
      binary_normalize prec emax (if sx then - r else r) e sx
  end.

Definition copysign0 (x : float) : float := S754_zero (sign_bit x).
Definition is_zero (x : float) : bool :=
  match x with S754_zero _ => true | _ => false end.

(** [divmod(v, w)] for floats. *)
Definition float_divmod (v w : float) : result (float * float) :=
  if is_zero w then Error (Raise ZeroDivisionError DivisionByZero)
  else
    let md := fmod v w in
    let dv := fdiv (fsub v md) w in
    let '(md, dv) :=
      if negb (is_zero md) then
        if negb (Bool.eqb (flt w f0) (flt md f0))
        then (fadd md w, fsub dv f1) else (md, dv)
      else (copysign0 w, dv) in
    let floordiv :=
      if negb (is_zero dv) then
        let fl := ffloor dv in
        if flt (float_of_ratio false 1 2) (fsub dv fl) then fadd fl f1 else fl
      else copysign0 (fdiv v w) in
    OK (floordiv, md).

(** [v // w] for floats. *)
Definition float_floordiv (v w : float) : result float :=
  '(q, _) <- float_divmod v w ;; OK q.

(** ** Formatting a float: [format(x, "{fill}{align}{width}.{p}f")] *)

(** The integer nearest to [n / d], ties to even, for [0 <= n] and [0 < d]. *)
Definition round_half_even (n d : Z) : Z :=
  let q := n / d in
  match 2 * (n mod d) ?= d with
  | Lt => q
  | Gt => q + 1
  | Eq => if Z.even q then q else q + 1
  end.

(** The digits of [|x|] with [p] decimals, correctly rounded from the exact
    binary value, as Python prints them. *)
Definition fixed_digits (p : nat) (x : float) : str :=
  let p10 := 10 ^ Z.of_nat p in
  let render N :=
    str_of_int (N / p10) ++
    match p with
    | O => []
    | _ => L "." ++ pad "0" AlignRight p [] (str_of_int (N mod p10))
    end in
  match x with
  | S754_nan => L "nan"
  | S754_infinity _ => L "inf"
  | S754_zero _ => render 0
  | S754_finite _ m e =>
      render (if 0 <=? e then Zpos m * 2 ^ e * p10
              else round_half_even (Zpos m * p10) (2 ^ (- e)))
  end.

Definition format_f (fill : ascii) (al : align) (width p : nat) (x : float) : str :=
  pad fill al width (if sign_bit x then L "-" else []) (fixed_digits p x).

(* ================================================================== *)
(** * [datetime.datetime] *)
(* ================================================================== *)

Record datetime := {
  year : Z; month : Z; day : Z;
  hour : Z; minute : Z; second : Z; microsecond : Z
}.

Definition is_leap (y : Z) : bool :=
  (y mod 4 =? 0) && (negb (y mod 100 =? 0) || (y mod 400 =? 0)).

Definition days_in_month (y m : Z) : Z :=
  if m =? 2 then (if is_leap y then 29 else 28)
  else if (m =? 4) || (m =? 6) || (m =? 9) || (m =? 11) then 30
  else 31.

(** [datetime(year, month, day, hour, minute, second, microsecond)]: the
    constructor checks every field against its range. *)
Definition datetime_new (y mo d h mi s us : Z) : result datetime :=
  if (1 <=? y) && (y <=? 9999) &&
     (1 <=? mo) && (mo <=? 12) &&
     (1 <=? d) && (d <=? days_in_month y mo) &&
     (0 <=? h) && (h <=? 23) &&
     (0 <=? mi) && (mi <=? 59) &&
     (0 <=? s) && (s <=? 59) &&
     (0 <=? us) && (us <=? 999999)
  then OK {| year := y; month := mo; day := d;
             hour := h; minute := mi; second := s; microsecond := us |}
  else Error (Raise ValueError DateRange).

(** [(epoch.date() - datetime.date(epoch.year, 1, 1)).days]: the days of the
    months before [month], and the days before [day]. *)
Definition days_since_jan1 (t : datetime) : Z :=
  fold_right Z.add 0
    (map (days_in_month (year t))
         (map Z.of_nat (seq 1 (Z.to_nat (month t) - 1)))) + (day t - 1).

(* ================================================================== *)
(** * sgp4/model.py: the Satellite class *)
(* ================================================================== *)

(** The value of the builtin [pow] on two floats: a float, or a complex number
    when the base is negative and the exponent is not an integer. *)
Inductive pynum :=
| PyFloat (x : float)
| PyComplex (re im : float).

(** [z * x] and [z - x] for a number [z] and a float [x]; for a complex [z]
    the float is first widened to [x + 0j]. *)
Definition pynum_mul (z : pynum) (x : float) : pynum :=
  match z with
  | PyFloat a => PyFloat (fmul a x)
  | PyComplex a b =>
      PyComplex (fsub (fmul a x) (fmul b f0)) (fadd (fmul a f0) (fmul b x))
  end.

Definition pynum_sub (z : pynum) (x : float) : pynum :=
  match z with
  | PyFloat a => PyFloat (fsub a x)
  | PyComplex a b => PyComplex (fsub a x) (fsub b f0)
  end.

(** Modelled from the spec: the gravitational-constant set is defined outside
    these sources; it exposes at least the scale factor [tumin], the one
    attribute the constructor reads. *)
Record EarthGravity := { tumin : float }.

Record Satellite := {
  whichconst : EarthGravity;
  satnum : Z;
  epoch : datetime;
  epochyr : Z;
  jdsatepoch : float;
  epochdays : float;
  bstar : float;
  inclo : float;
  nodeo : float;
  ecco : float;
  argpo : float;
  mo : float;
  no_kozai : float;
  a : pynum;
  alta : pynum;
  altp : pynum;
  ndot : float;
  nddot : float;
  classification : str;
  intldesg : option str;
  elnum : Z;
  revnum : Z;
  error : Z
}.

(** The collaborators of the two modules: [sgp4.ext], [sgp4.propagation], the
    C library behind [math.log10], [math.pow] and the builtin [pow], and the
    complex power the builtin [pow] hands a negative base with a fractional
    exponent to, which goes through the hypot, atan2, sin and cos of the C
    library and returns the two parts of a complex number or raises.

    Modelled from the spec: [days2mdhms], [jday] and [sgp4init] are defined
    outside these sources. [days2mdhms(year, days)] returns
    [(month, day, hour, minute, second)] and [jday] a Julian date; [sgp4init]
    raises nothing and reports a failure through the status code of the
    entity, which is what it returns here, the rest of what it stores being
    its own bookkeeping. *)
Record Env := {
  days2mdhms : Z -> float -> Z * Z * Z * Z * float;
  jday : Z -> Z -> Z -> Z -> Z -> float -> float;
  sgp4init : EarthGravity -> bool -> Z -> float -> float -> float -> float ->
             float -> float -> float -> float -> Satellite -> Z;
  libm_log10 : float -> float;
  libm_pow : float -> float -> float;
  complex_pow : float -> float -> result (float * float)
}.

Definition F (n : Z) : float := float_of_int n.

(** [fmod(fabs(x), 2.0) == 1.0]: the float is an odd integer. *)
Definition is_odd_integer (x : float) : bool := feq (fmod (fabs x) (F 2)) f1.

(** The builtin [pow(v, w)], that is [v ** w], for two floats: the special
    cases come first, then a negative base with a fractional exponent goes to
    the complex power, and what is left to the [pow] of the C library, whose
    infinite result is a range error. *)
Definition float_pow (env : Env) (v w : float) : result pynum :=
  if feq w f0 then OK (PyFloat f1)
  else if is_nan v then OK (PyFloat v)
  else if is_nan w then OK (PyFloat (if feq v f1 then f1 else w))
  else if is_inf w then
    let av := fabs v in
    if feq av f1 then OK (PyFloat f1)
    else if Bool.eqb (flt f0 w) (flt f1 av) then OK (PyFloat (fabs w))
    else OK (PyFloat f0)
  else if is_inf v then
    let odd := is_odd_integer w in
    if flt f0 w then OK (PyFloat (if odd then v else fabs v))
    else OK (PyFloat (if odd then copysign0 v else f0))
  else if feq v f0 then
    if flt w f0 then Error (Raise ZeroDivisionError ZeroToNegativePower)
    else OK (PyFloat (if is_odd_integer w then v else f0))
  else if flt v f0 && negb (feq w (ffloor w)) then
    '(re, im) <- complex_pow env v w ;; OK (PyComplex re im)
  else
    let negate_result := flt v f0 && is_odd_integer w in
    let v := if flt v f0 then fneg v else v in
    if feq v f1 then OK (PyFloat (if negate_result then fneg f1 else f1))
    else
      let ix := libm_pow env v w in
      if is_inf ix then Error (Raise OverflowError ResultOutOfRange)
      else OK (PyFloat (if negate_result then fneg ix else ix)).

(** The assignment [satrec.error = status]. *)
Definition set_error (self : Satellite) (status : Z) : Satellite := {|
  whichconst := whichconst self; satnum := satnum self; epoch := epoch self;
  epochyr := epochyr self; jdsatepoch := jdsatepoch self;
  epochdays := epochdays self; bstar := bstar self; inclo := inclo self;
  nodeo := nodeo self; ecco := ecco self; argpo := argpo self; mo := mo self;
  no_kozai := no_kozai self; a := a self; alta := alta self;
  altp := altp self; ndot := ndot self; nddot := nddot self;
  classification := classification self; intldesg := intldesg self;
  elnum := elnum self; revnum := revnum self; error := status |}.

(** [Satellite.__init__]: the attributes, then the call of [sgp4init]. *)
Definition Satellite__init__ (env : Env)
    (whichconst : EarthGravity) (satnum : Z) (epoch : datetime)
    (bstar inclo nodeo ecco argpo mo no_kozai ndot nddot : float)
    (classification : str) (intldesg : option str) (elnum revnum : Z)
    (afspc_mode : bool) : result Satellite :=
  let seconds :=
    fadd (F (second epoch))
         (fmul (float_of_decimal false 1 (-6)) (F (microsecond epoch))) in
  let jdsatepoch :=
    jday env (year epoch) (month epoch) (day epoch) (hour epoch)
         (minute epoch) seconds in
  let days_in_the_year := days_since_jan1 epoch + 1 in
  let epochdays :=
    fadd (F days_in_the_year)
         (fdiv (fadd (fadd (F (hour epoch))
                           (int_truediv (minute epoch) 60))
                     (fdiv (fdiv seconds (F 60)) (F 60)))
               (F 24)) in
  a <- float_pow env (fmul no_kozai (tumin whichconst))
                     (fdiv (fneg (F 2)) (F 3)) ;;
  let alta := pynum_sub (pynum_mul a (fadd f1 ecco)) f1 in
  let altp := pynum_sub (pynum_mul a (fsub f1 ecco)) f1 in
  let self := {|
    whichconst := whichconst; satnum := satnum; epoch := epoch;
    epochyr := year epoch; jdsatepoch := jdsatepoch; epochdays := epochdays;
    bstar := bstar; inclo := inclo; nodeo := nodeo; ecco := ecco;
    argpo := argpo; mo := mo; no_kozai := no_kozai;
    a := a; alta := alta; altp := altp;
    ndot := ndot; nddot := nddot;
    classification := classification; intldesg := intldesg;
    elnum := elnum; revnum := revnum; error := 0 |} in
  let status :=
    sgp4init env whichconst afspc_mode satnum
             (fsub jdsatepoch (float_of_decimal false 24332815 (-1)))
             bstar ecco argpo inclo mo no_kozai nodeo self in
  OK (set_error self status).

(** [minutes_per_day = 1440.] *)
Definition minutes_per_day : float := F 1440.

(** [Satellite.propagate].

    Modelled from the spec: [sgp4], of [sgp4.propagation], is defined outside
    these sources; it takes the entity and the minutes since its epoch and
    returns a position and a velocity. *)
Definition propagate {P V : Type} (env : Env)
    (sgp4 : Satellite -> float -> P * V) (self : Satellite)
    (year month day hour minute : Z) (second : float) : P * V :=
  let j := jday env year month day hour minute second in
  let m := fmul (fsub j (jdsatepoch self)) minutes_per_day in
  let '(r, v) := sgp4 self m in
  (r, v).

(* ================================================================== *)
(** * sgp4_vec/io.py *)
(* ================================================================== *)

(** ** The [math] module *)

(** [math.log10(x)] for a float. *)
Definition math_log10 (env : Env) (x : float) : result float :=
  if is_finite x then
    if flt f0 x then
      let r := libm_log10 env x in
      if is_nan r || is_inf r then Error (Raise ValueError MathDomain)
      else OK r
    else Error (Raise ValueError MathDomain)
  else if is_nan x then OK x
  else if sign_bit x then Error (Raise ValueError MathDomain)
  else OK x.

(** [math.pow(x, y)] for floats. *)
Definition math_pow (env : Env) (x y : float) : result float :=
  if negb (is_finite x) || negb (is_finite y) then
    if is_nan x then OK (if feq y f0 then f1 else x)
    else if is_nan y then OK (if feq x f1 then f1 else y)
    else if is_inf x then
      let odd_y := is_finite y && feq (fmod (fabs y) (F 2)) f1 in
      if flt f0 y then OK (if odd_y then x else fabs x)
      else if feq y f0 then OK f1
      else OK (if odd_y then copysign0 x else f0)
    else
      if feq (fabs x) f1 then OK f1
      else if flt f0 y && flt f1 (fabs x) then OK y
      else if flt y f0 && flt (fabs x) f1 then OK (fneg y)
      else OK f0
  else
    let r := libm_pow env x y in
    if is_nan r then Error (Raise ValueError MathDomain)
    else if is_inf r then
      if feq x f0 then Error (Raise ValueError MathDomain)
      else Error (Raise OverflowError MathRange)
    else OK r.

(** ** Module constants *)

Definition nl : str := ["010"%char].

Definition LINE1 : str :=
  L "1 NNNNNC NNNNNAAA NNNNN.NNNNNNNN +.NNNNNNNN +NNNNN-N +NNNNN-N N NNNNN".
Definition LINE2 : str :=
  L "2 NNNNN NNN.NNNN NNN.NNNN NNNNNNN NNN.NNNN NNN.NNNN NN.NNNNNNNNNNNNNN".

(** [error_message.format(n, template, line)]. *)
Definition error_message (n : Z) (template line : str) : str :=
  L "TLE format error" ++ nl ++ nl ++
  L "The Two-Line Element (TLE) format was designed for punch cards, and so"
  ++ nl ++
  L "is very strict about the position of every period, space, and digit."
  ++ nl ++
  L "Your line does not quite match.  Here is the official format for line "
  ++ str_of_int n ++ nl ++
  L "with an N where each digit should go, followed by the line you provided:"
  ++ nl ++ nl ++ template ++ nl ++ line.

Definition deg2rad : float := fdiv pi (F 180).
Definition xpdotp : float := fdiv (F 1440) (fmul (F 2) pi).

(** ** twoline2rv *)

(** [line[i]] where the source has already checked [i < len(line)]. *)
Definition at_ (line : str) (i : nat) : str := slice line i (S i).

(** [x or y] for strings. *)
Definition str_or (x y : str) : str :=
  match x with [] => y | _ => x end.

(** The variables the first branch of [twoline2rv] assigns. *)
Record Line1 := {
  l1_satnum : Z;
  l1_classification : str;
  l1_intldesg : str;
  l1_two_digit_year : Z;
  l1_epochdays : float;
  l1_ndot : float;
  l1_nddot : float;
  l1_nexp : Z;
  l1_bstar : float;
  l1_ibexp : Z;
  l1_elnum : Z
}.

(** The condition of the first [if]. *)
Definition line1_matches (line : str) : bool :=
  (64 <=? length line)%nat &&
  startswith line (L "1 ") &&
  char_is line 8 " " &&
  char_is line 23 "." &&
  char_is line 32 " " &&
  char_is line 34 "." &&
  char_is line 43 " " &&
  char_is line 52 " " &&
  char_is line 61 " " &&
  char_is line 63 " ".

Definition read_line1 (longstr1 : str) : result Line1 :=
  let line := rstrip longstr1 in
  if line1_matches line then
    _saved_satnum <- int_of_str (slice line 2 7) ;;
    let classification := str_or (at_ line 7) (L "U") in
    let intldesg := slice line 9 17 in
    two_digit_year <- int_of_str (slice line 18 20) ;;
    epochdays <- float_of_str (slice line 20 32) ;;
    ndot <- float_of_str (slice line 33 43) ;;
    nddot <- float_of_str (at_ line 44 ++ L "." ++ slice line 45 50) ;;
    nexp <- int_of_str (slice line 50 52) ;;
    bstar <- float_of_str (at_ line 53 ++ L "." ++ slice line 54 59) ;;
    ibexp <- int_of_str (slice line 59 61) ;;
    elnum <- int_of_str (slice line 64 68) ;;
    OK {| l1_satnum := _saved_satnum; l1_classification := classification;
          l1_intldesg := intldesg; l1_two_digit_year := two_digit_year;
          l1_epochdays := epochdays; l1_ndot := ndot; l1_nddot := nddot;
          l1_nexp := nexp; l1_bstar := bstar; l1_ibexp := ibexp;
          l1_elnum := elnum |}
  else Error (Raise ValueError (Text (error_message 1 LINE1 line))).

(** The variables the second branch assigns. *)
Record Line2 := {
  l2_satnum : Z;
  l2_inclo : float;
  l2_nodeo : float;
  l2_ecco : float;
  l2_argpo : float;
  l2_mo : float;
  l2_no_kozai : float;
  l2_revnum : Z
}.

(** The condition of the second [if]. *)
Definition line2_matches (line : str) : bool :=
  (69 <=? length line)%nat &&
  startswith line (L "2 ") &&
  char_is line 7 " " &&
  char_is line 11 "." &&
  char_is line 16 " " &&
  char_is line 20 "." &&
  char_is line 25 " " &&
  char_is line 33 " " &&
  char_is line 37 "." &&
  char_is line 42 " " &&
  char_is line 46 "." &&
  char_is line 51 " ".

Definition read_line2 (_saved_satnum : Z) (longstr2 : str) : result Line2 :=
  let line := rstrip longstr2 in
  if line2_matches line then
    satnum <- int_of_str (slice line 2 7) ;;
    if negb (_saved_satnum =? satnum) then
      Error (Raise ValueError
               (Text (L "Object numbers in lines 1 and 2 do not match")))
    else
      inclo <- float_of_str (slice line 8 16) ;;
      nodeo <- float_of_str (slice line 17 25) ;;
      ecco <- float_of_str (L "0." ++ replace " " "0" (slice line 26 33)) ;;
      argpo <- float_of_str (slice line 34 42) ;;
      mo <- float_of_str (slice line 43 51) ;;
      no_kozai <- float_of_str (slice line 52 63) ;;
      revnum <- int_of_str (slice line 63 68) ;;
      OK {| l2_satnum := satnum; l2_inclo := inclo; l2_nodeo := nodeo;
            l2_ecco := ecco; l2_argpo := argpo; l2_mo := mo;
            l2_no_kozai := no_kozai; l2_revnum := revnum |}
  else Error (Raise ValueError (Text (error_message 2 LINE2 line))).

(** The "temp fix for years from 1957-2056". *)
Definition four_digit_year (two_digit_year : Z) : Z :=
  if two_digit_year <? 57 then two_digit_year + 2000
  else two_digit_year + 1900.

Definition twoline2rv (env : Env) (longstr1 longstr2 : str)
    (whichconst : EarthGravity) (afspc_mode : bool) : result Satellite :=
  r1 <- read_line1 longstr1 ;;
  r2 <- read_line2 (l1_satnum r1) longstr2 ;;
  (*  ---- find no, ndot, nddot ---- *)
  let no_kozai := fdiv (l2_no_kozai r2) xpdotp in
  p <- math_pow env (F 10) (F (l1_nexp r1)) ;;
  let nddot := fmul (l1_nddot r1) p in
  p <- math_pow env (F 10) (F (l1_ibexp r1)) ;;
  let bstar := fmul (l1_bstar r1) p in
  (*  ---- convert to sgp4 units ---- *)
  let ndot := fdiv (l1_ndot r1) (fmul xpdotp (F 1440)) in
  let nddot := fdiv nddot (fmul (fmul xpdotp (F 1440)) (F 1440)) in
  (*  ---- find standard orbital elements ---- *)
  let inclo := fmul (l2_inclo r2) deg2rad in
  let nodeo := fmul (l2_nodeo r2) deg2rad in
  let argpo := fmul (l2_argpo r2) deg2rad in
  let mo := fmul (l2_mo r2) deg2rad in
  let year := four_digit_year (l1_two_digit_year r1) in
  let '(mon, day, hr, minute, sec) := days2mdhms env year (l1_epochdays r1) in
  '(sec_whole, sec_fraction) <- float_divmod sec f1 ;;
  s <- int_of_float sec_whole ;;
  us <- float_floordiv (fmul sec_fraction (F 1000000)) f1 ;;
  us <- int_of_float us ;;
  epoch <- datetime_new year mon day hr minute s us ;;
  Satellite__init__ env whichconst (l2_satnum r2) epoch bstar inclo nodeo
    (l2_ecco r2) argpo mo no_kozai ndot nddot (l1_classification r1)
    (Some (l1_intldesg r1)) (l1_elnum r1) (l2_revnum r2) afspc_mode.

(** ** The checksum functions *)

(** [sum(... for c in chars)], the generator's terms being
    [int(c) if c.isdigit() else c == '-']. *)
Fixpoint sum_terms (chars : str) (acc : Z) : result Z :=
  match chars with
  | [] => OK acc
  | c :: rest =>
      term <- (if isdigit [c] then int_of_str [c]
               else OK (if str_eqb [c] (L "-") then 1 else 0)) ;;
      sum_terms rest (acc + term)
  end.

Definition compute_checksum (line : str) : result Z :=
  total <- sum_terms (slice line 0 68) 0 ;;
  OK (total mod 10).

Definition fix_checksum (line : str) : result str :=
  let body := ljust (slice line 0 68) 68 in
  checksum <- compute_checksum line ;;
  OK (body ++ str_of_int checksum).

Definition complaint (checksum computed : Z) (line : str) : str :=
  L "TLE line gives its checksum as " ++ str_of_int checksum ++
  L " but in fact tallies to " ++ str_of_int computed ++ L ":" ++ nl ++ line.

Fixpoint verify_checksum (lines : list str) : result unit :=
  match lines with
  | [] => OK tt
  | line :: rest =>
      let checksum := slice line 68 69 in
      if negb (isdigit checksum) then verify_checksum rest
      else
        checksum <- int_of_str checksum ;;
        computed <- compute_checksum line ;;
        if negb (checksum =? computed)
        then Error (Raise ValueError (Text (complaint checksum computed line)))
        else verify_checksum rest
  end.

(** ** rv2twoline *)

(** [lst[a:b] = s] for a string [s] and literal bounds [a <= b]: the elements
    from [a] up to [b] are replaced by the characters of [s], however many
    there are. *)
Definition set_slice (lst : list str) (a b : nat) (s : str) : list str :=
  firstn a lst ++ map (fun c => [c]) s ++ skipn b lst.

(** [lst[i] = v]. *)
Definition set_item (lst : list str) (i : nat) (v : str) : result (list str) :=
  if (i <? length lst)%nat
  then OK (firstn i lst ++ [v] ++ skipn (S i) lst)
  else Error (Raise IndexError ListAssignment).

Definition join (lst : list str) : str := concat lst.

(** [rv2twoline] is modelled in two halves, one for each line it builds:
    the statements up to [line1 = "".join(line1_out_list)], then the rest. *)
Definition rv2twoline_line1 (env : Env) (satrec : Satellite) : result str :=
  let line1_out_list := map (fun c => [c]) (repeat " "%char 69) in
  line1_out_list <- set_item line1_out_list 0 (str_of_int 1) ;;
  let line1_out_list :=
    set_slice line1_out_list 2 7 (format_d "0" AlignSign 5 (satnum satrec)) in
  line1_out_list <- set_item line1_out_list 7 (classification satrec) ;;
  line1_out_list <-
    match intldesg satrec with
    | Some d => OK (set_slice line1_out_list 9 15 d)
    | None => Error (Raise TypeError NotIterable)
    end ;;
  let line1_out_list :=
    set_slice line1_out_list 18 20 (last_n (str_of_int (epochyr satrec)) 2) in
  let line1_out_list :=
    set_slice line1_out_list 20 32
      (format_f "0" AlignRight 12 8 (epochdays satrec)) in
  let ndot_min := fmul (ndot satrec) (fmul xpdotp (F 1440)) in
  let line1_out_list :=
    if flt ndot_min f0 then
      set_slice line1_out_list 33 43
        (L "-." ++ after_last_dot (format_f " " AlignSign 8 8 ndot_min))
    else
      set_slice line1_out_list 33 43
        (L " ." ++ after_last_dot (format_f " " AlignSign 8 8 ndot_min)) in
  line1_out_list <-
    (if feq (nddot satrec) f0 then
       OK (set_slice line1_out_list 45 52 (L "00000-0"))
     else
       let nddot := fmul (nddot satrec) (fmul (fmul xpdotp (F 1440)) (F 1440)) in
       let nddot_module := fabs nddot in
       lg <- math_log10 env nddot_module ;;
       nexp <- int_of_float lg ;;
       lg <- math_log10 env nddot_module ;;
       ndot_fraction <- math_pow env (F 10) (fsub lg (F nexp)) ;;
       lst <- set_item line1_out_list 44
                (if flt nddot f0 then L "-" else L " ") ;;
       let lst :=
         set_slice lst 45 50
           (slice_from (format_f " " AlignRight 1 5 ndot_fraction) 2) in
       OK (set_slice lst 50 52
             (if nexp <? 0 then str_of_int nexp else L "+" ++ str_of_int nexp))) ;;
  line1_out_list <-
    (if feq (bstar satrec) f0 then
       OK (set_slice line1_out_list 54 61 (L "00000+0"))
     else
       let bstar_module := fabs (bstar satrec) in
       lg <- math_log10 env bstar_module ;;
       ibexp <- int_of_float lg ;;
       lg <- math_log10 env bstar_module ;;
       let ibexp := if feq (fsub (F ibexp) lg) f0 then ibexp + 1 else ibexp in
       lg <- math_log10 env bstar_module ;;
       bstar_frac <- math_pow env (F 10) (fsub lg (F ibexp)) ;;
       lst <- set_item line1_out_list 53
                (if flt (bstar satrec) f0 then L "-" else L " ") ;;
       let lst :=
         set_slice lst 54 59
           (slice_from (format_f " " AlignRight 1 5 bstar_frac) 2) in
       OK (set_slice lst 59 61
             (if ibexp =? 0 then L "-" ++ str_of_int ibexp
              else str_of_int ibexp))) ;;
  line1_out_list <- set_item line1_out_list 62 (L "0") ;;
  let line1_out_list :=
    set_slice line1_out_list 64 68 (format_d " " AlignRight 4 (elnum satrec)) in
  checksum <- compute_checksum (join line1_out_list) ;;
  line1_out_list <- set_item line1_out_list 68 (str_of_int checksum) ;;
  OK (join line1_out_list).

Definition rv2twoline_line2 (env : Env) (satrec : Satellite) : result str :=
  let line2_out_list := map (fun c => [c]) (repeat " "%char 69) in
  line2_out_list <- set_item line2_out_list 0 (str_of_int 2) ;;
  let line2_out_list :=
    set_slice line2_out_list 2 7 (format_d "0" AlignSign 5 (satnum satrec)) in
  let incl := fdiv (inclo satrec) deg2rad in
  lg <- math_log10 env incl ;;
  digits <- int_of_float lg ;;
  line2_out_list <-
    (if digits =? 2 then
       OK (set_slice line2_out_list 8 16 (format_f " " AlignRight 8 4 incl))
     else
       lg <- math_log10 env incl ;;
       digits <- int_of_float lg ;;
       if digits =? 1 then
         OK (set_slice line2_out_list 9 16 (format_f " " AlignRight 7 4 incl))
       else
         OK (set_slice line2_out_list 10 16 (format_f " " AlignRight 6 4 incl))) ;;
  let line2_out_list :=
    set_slice line2_out_list 17 25
      (format_f " " AlignRight 8 4 (fdiv (nodeo satrec) deg2rad)) in
  let line2_out_list :=
    set_slice line2_out_list 26 33
      (slice_from (format_f " " AlignRight 8 7 (ecco satrec)) 2) in
  let line2_out_list :=
    set_slice line2_out_list 34 42
      (format_f " " AlignRight 8 4 (fdiv (argpo satrec) deg2rad)) in
  let line2_out_list :=
    set_slice line2_out_list 43 51
      (format_f " " AlignRight 8 4 (fdiv (mo satrec) deg2rad)) in
  let line2_out_list :=
    set_slice line2_out_list 52 63
      (format_f " " AlignRight 11 8 (fmul (no_kozai satrec) xpdotp)) in
  let line2_out_list :=
    set_slice line2_out_list 63 68 (format_d " " AlignRight 5 (revnum satrec)) in
  checksum <- compute_checksum (join line2_out_list) ;;
  line2_out_list <- set_item line2_out_list 68 (str_of_int checksum) ;;
  OK (join line2_out_list).

(** [rv2twoline] builds the first line, then the second. *)
Definition rv2twoline (env : Env) (satrec : Satellite) : result (str * str) :=
  line1 <- rv2twoline_line1 env satrec ;;
  line2 <- rv2twoline_line2 env satrec ;;
  OK (line1, line2).

(* ================================================================== *)
(** * A sample environment *)
(* ================================================================== *)

(** Stand-ins for the collaborators, used to run the model on examples. The
    theorems below hold for every environment; the sample only shows that
    their hypotheses can be met. *)

(** The largest [k] with [10^k <= n / d], searched downwards from [k0]. *)
Fixpoint log10_floor (fuel : nat) (k0 n d : Z) : Z :=
  match fuel with
  | O => k0
  | S fuel' =>
      let fits := if 0 <=? k0 then d * 10 ^ k0 <=? n
                  else d <=? n * 10 ^ (- k0) in
      if fits then k0 else log10_floor fuel' (k0 - 1) n d
  end.

(** A coarse base-10 logarithm: the integer part only. *)
Definition sample_log10 (x : float) : float :=
  match x with
  | S754_finite false m e =>
      F (if 0 <=? e then log10_floor 800 400 (Zpos m * 2 ^ e) 1
         else log10_floor 800 400 (Zpos m) (2 ^ (- e)))
  | _ => x
  end.

(** A coarse power: [10^y] for the integer part of [y], whatever the base. *)
Definition sample_pow (x y : float) : float :=
  match int_of_float (ffloor y) with
  | OK k => float_of_decimal false 1 k
  | Error _ => y
  end.

(** The first day of the epoch year, at midnight. *)
Definition sample_env : Env := {|
  days2mdhms := fun _ _ => (1, 1, 0, 0, f0);
  jday := fun y _ _ _ _ _ => F (367 * y);
  sgp4init := fun _ _ _ _ _ _ _ _ _ _ _ _ => 0;
  libm_log10 := sample_log10;
  libm_pow := sample_pow;
  complex_pow := fun x y => OK (sample_pow x y, f0)
|}.

Definition sample_gravity : EarthGravity :=
  {| tumin := float_of_decimal false 1344683969695931 (-14) |}.

(* ================================================================== *)
(** * The statements of the specification *)
(* ================================================================== *)

(** What a character contributes to the checksum, in the spec's words: a
    decimal digit its value, a minus sign 1, anything else 0. *)
Definition char_value (c : ascii) : Z :=
  if is_ascii_digit c then digit_value c
  else if Ascii.eqb c "-" then 1 else 0.

(** The sum over the first 68 characters, modulo 10. *)
Definition checksum_spec (line : str) : Z :=
  fold_right (fun c total => char_value c + total) 0 (firstn 68 line) mod 10.

(** A character that is a decimal digit whenever [isdigit] accepts it: every
    character but the superscripts U+00B2, U+00B3 and U+00B9. *)
Definition plain_char (c : ascii) : bool :=
  implb (char_isdigit c) (is_ascii_digit c).

Definition plain_line (line : str) : bool :=
  forallb plain_char (firstn 68 line).

(** The positions (from 0) the two conditions of [twoline2rv] compare, with
    the character each must hold. *)
Definition LINE1_positions : list (nat * ascii) :=
  [(0, "1"); (1, " "); (8, " "); (23, "."); (32, " "); (34, ".");
   (43, " "); (52, " "); (61, " "); (63, " ")]%nat%char.

Definition LINE2_positions : list (nat * ascii) :=
  [(0, "2"); (1, " "); (7, " "); (11, "."); (16, " "); (20, ".");
   (25, " "); (33, " "); (37, "."); (42, " "); (46, "."); (51, " ")]%nat%char.

(** A raw line breaks the template at one of the given positions. *)
Definition violates (positions : list (nat * ascii)) (line : str) : Prop :=
  exists i c, In (i, c) positions /\ nth_error line i <> Some c.

(** The derived geometry, in the spec's words, written in the operations of
    binary64 themselves: the floats 1.0 and -2/3 (0x1.5555555555555p-1 with
    the minus sign), the mean motion scaled by [tumin], and the altitudes
    [a * (1 + e) - 1] and [a * (1 - e) - 1]. *)
Definition one : float := S754_finite false 4503599627370496 (-52).
Definition minus_two_thirds : float :=
  S754_finite true 6004799503160661 (-53).
Definition apogee_altitude (a e : float) : float :=
  SFsub 53 1024 (SFmul 53 1024 a (SFadd 53 1024 one e)) one.
Definition perigee_altitude (a e : float) : float :=
  SFsub 53 1024 (SFmul 53 1024 a (SFsub 53 1024 one e)) one.


(** The 69th character of a line is a decimal digit other than the checksum
    of its first 68 characters. *)
Definition checksum_mismatch (line : str) : Prop :=
  exists d, nth_error line 68 = Some d /\ is_ascii_digit d = true /\
            digit_value d <> checksum_spec line.

(** Two lines that differ at most in the digit of column 69. *)
Definition same_but_checksum (line line' : str) : Prop :=
  firstn 68 line = firstn 68 line' /\ skipn 69 line = skipn 69 line' /\
  exists d d', nth_error line 68 = Some d /\ nth_error line' 68 = Some d' /\
               is_ascii_digit d = true /\ is_ascii_digit d' = true.

(** A list of at least [n] elements, none of them empty. *)
Definition wide (n : nat) (lst : list str) : Prop :=
  (n <= length lst)%nat /\ Forall (fun e => (1 <= length e)%nat) lst.

(** The first 69 characters of a line are plain: the 68 that are summed and
    the checksum character. *)
Definition plain69 (line : str) : bool := forallb plain_char (firstn 69 line).

(** What [verify_checksum] asks of one line: when the 69th character is a
    decimal digit, it is the checksum of the first 68. *)
Definition checksum_agrees (line : str) : bool :=
  match nth_error line 68 with
  | Some d =>
      if is_ascii_digit d then digit_value d =? checksum_spec line else true
  | None => true
  end.

(** The 256 characters. *)
Definition all_ascii : list ascii := map ascii_of_nat (seq 0 256).

(** What [int] makes of two characters: a number from -9 to 99, and the
    number the two digits spell when both are decimal digits. *)
Definition two_chars_read (a b : ascii) : bool :=
  match int_of_str [a; b] with
  | OK v =>
      (-9 <=? v) && (v <=? 99) &&
      implb (is_ascii_digit a && is_ascii_digit b)
            (v =? 10 * digit_value a + digit_value b)
  | Error _ => negb (is_ascii_digit a && is_ascii_digit b)
  end.

(** The decimal digits as numbers, and the numbers of five digits. *)
Definition decimal_digits : list Z := [0; 1; 2; 3; 4; 5; 6; 7; 8; 9].

(** ["{:05d}".format(n)] is five decimal digits that [int] reads back as
    [n]. *)
Definition five_digits_read (n : Z) : bool :=
  let s := format_d "0" AlignSign 5 n in
  (length s =? 5)%nat && forallb is_ascii_digit s &&
  match int_of_str s with OK m => m =? n | Error _ => false end.

(** A list of one-character strings, as [list(" " * 69)] is. *)
Definition flat (lst : list str) : Prop :=
  Forall (fun e => length e = 1%nat) lst.

(** A list whose first seven elements are the seven characters of [h], one
    each. *)
Definition headed (h : str) (lst : list str) : Prop :=
  length h = 7%nat /\ firstn 7 lst = map (fun c => [c]) h.

(* ================================================================== *)
(** * Example inputs *)
(* ================================================================== *)

(** The superscript two: [isdigit] accepts it and [int] does not. *)
Definition superscript_two : str := ["178"%char].

(** The element set of Vanguard 1, the first case of the SGP4 test suite. *)
Definition vanguard1 : str :=
  L "1 00005U 58002B   00179.78495062  .00000023  00000-0  28098-4 0  4753".
Definition vanguard2 : str :=
  L "2 00005  34.2682 348.7242 1859667 331.7664  19.3264 10.82419157413667".

(** Line 1 with letters for the satellite number, and line 2 with a letter in
    the blank at position 7. *)
Definition lettered1 : str :=
  L "1 ABCDEU 58002B   00179.78495062  .00000023  00000-0  28098-4 0  4753".
Definition broken2 : str :=
  L "2 00005X 34.2682 348.7242 1859667 331.7664  19.3264 10.82419157413667".

(** Line 1 with a letter at position 17, where the template has a blank that
    [twoline2rv] does not compare. *)
Definition marked1 : str :=
  L "1 00005U 58002B  X00179.78495062  .00000023  00000-0  28098-4 0  4753".

(** Line 1 of Vanguard 1 with 9 for its checksum digit, which is 3. *)
Definition miscounted1 : str :=
  L "1 00005U 58002B   00179.78495062  .00000023  00000-0  28098-4 0  4759".

(** The element set of an SL-12 rocket body, from the same suite: no drag
    term and no second derivative. *)
Definition sl12_1 : str :=
  L "1 20413U 83020D   05363.79166667  .00000000  00000-0  00000+0 0  7041".
Definition sl12_2 : str :=
  L "2 20413  12.3514 187.4253 7864447 196.3027 356.5478  0.24690082  7978".

(** The same elements for a direct construction: degrees and revolutions per
    day converted as [twoline2rv] does, the epoch as a timestamp. *)
Definition sl12_epoch : datetime :=
  {| year := 2005; month := 12; day := 29;
     hour := 19; minute := 0; second := 0; microsecond := 288 |}.
Definition sl12_inclo : float := fmul (float_of_decimal false 123514 (-4)) deg2rad.
Definition sl12_nodeo : float := fmul (float_of_decimal false 1874253 (-4)) deg2rad.
Definition sl12_ecco : float := float_of_decimal false 7864447 (-7).
Definition sl12_argpo : float := fmul (float_of_decimal false 1963027 (-4)) deg2rad.
Definition sl12_mo : float := fmul (float_of_decimal false 3565478 (-4)) deg2rad.
Definition sl12_no_kozai : float := fdiv (float_of_decimal false 24690082 (-8)) xpdotp.

(** The rocket body built by direct construction in the sample environment,
    with its designator in the eight columns of the format, and with the
    default of the constructor, no designator. *)
Definition sl12_entity : result Satellite :=
  Satellite__init__ sample_env sample_gravity 20413 sl12_epoch f0 sl12_inclo
    sl12_nodeo sl12_ecco sl12_argpo sl12_mo sl12_no_kozai f0 f0 (L "U")
    (Some (L "83020D  ")) 704 797 false.
Definition sl12_anonymous : result Satellite :=
  Satellite__init__ sample_env sample_gravity 20413 sl12_epoch f0 sl12_inclo
    sl12_nodeo sl12_ecco sl12_argpo sl12_mo sl12_no_kozai f0 f0 (L "U")
    None 1 1 false.

(** The same object on an equatorial orbit: inclination 0.0. *)
Definition sl12_equatorial : result Satellite :=
  Satellite__init__ sample_env sample_gravity 20413 sl12_epoch f0 f0
    sl12_nodeo sl12_ecco sl12_argpo sl12_mo sl12_no_kozai f0 f0 (L "U")
    (Some (L "83020D  ")) 704 797 false.

(** Line 2 of Vanguard 1 with a blank eccentricity field. *)
Definition circular2 : str :=
  L "2 00005  34.2682 348.7242         331.7664  19.3264 10.82419157413665".

(** Line 2 of Vanguard 1 under another satellite number. *)
Definition stranger2 : str :=
  L "2 00006  34.2682 348.7242 1859667 331.7664  19.3264 10.82419157413668".


(* ================================================================== *)
(** * Basic facts about strings *)
(* ================================================================== *)

Lemma bind_OK {A B} (r : result A) (k : A -> result B) (b : B) :
  bind r k = OK b -> exists a, r = OK a /\ k a = OK b.
Proof.
  destruct r as [a | e]; simpl; intros H; [ eauto | discriminate ].
Qed.

Lemma slice_0 {A} (s : list A) (b : nat) : slice s 0 b = firstn b s.
Proof. unfold slice. rewrite Nat.sub_0_r. reflexivity. Qed.

Lemma str_eqb_eq (a b : str) : str_eqb a b = true <-> a = b.
Proof.
  unfold str_eqb. destruct (list_eq_dec ascii_dec a b); split; intros;
    congruence.
Qed.

Lemma str_eqb_refl (a : str) : str_eqb a a = true.
Proof. apply str_eqb_eq. reflexivity. Qed.

(** [int(c)] for a decimal digit. *)
Lemma int_of_digit (c : ascii) :
  is_ascii_digit c = true -> int_of_str [c] = OK (digit_value c).
Proof.
  destruct c as [[] [] [] [] [] [] [] []]; intros H; try discriminate H;
    reflexivity.
Qed.

(** A term of the checksum sum, on a plain character. *)
Lemma checksum_term (c : ascii) :
  plain_char c = true ->
  (if isdigit [c] then int_of_str [c]
   else OK (if str_eqb [c] (L "-") then 1 else 0)) = OK (char_value c).
Proof.
  destruct c as [[] [] [] [] [] [] [] []]; intros H; try discriminate H;
    reflexivity.
Qed.

Lemma sum_terms_plain (chars : str) (acc : Z) :
  forallb plain_char chars = true ->
  sum_terms chars acc =
  OK (acc + fold_right (fun c total => char_value c + total) 0 chars).
Proof.
  revert acc. induction chars as [| c rest IH]; intros acc H.
  - simpl. f_equal. lia.
  - simpl in H. apply andb_true_iff in H. destruct H as [Hc Hrest].
    cbn [sum_terms]. rewrite (checksum_term c Hc). cbn [bind].
    rewrite IH by assumption. cbn [fold_right]. f_equal. lia.
Qed.

(* ================================================================== *)
(** * The checksum unit *)
(* ================================================================== *)

Lemma compute_checksum_sum (line : str) :
  plain_line line = true ->
  compute_checksum line = OK (checksum_spec line).
Proof.
  intros H. unfold compute_checksum, checksum_spec. rewrite slice_0.
  rewrite sum_terms_plain by exact H. reflexivity.
Qed.

(** C5, amended: on a line whose first 68 characters are plain (none is a
    superscript digit), [compute_checksum] returns the sum, over these
    characters, of the value of each decimal digit and of 1 for each minus
    sign, modulo 10. *)
Theorem compute_checksum_plain (line : str) :
  plain_line line = true ->
  compute_checksum line =
  OK (fold_right (fun c total => char_value c + total) 0 (firstn 68 line)
      mod 10).
Proof. exact (compute_checksum_sum line). Qed.

Lemma compute_checksum_plain_witness :
  plain_line vanguard1 = true /\ compute_checksum vanguard1 = OK 3.
Proof.
  split; [ reflexivity | exact (compute_checksum_plain vanguard1 eq_refl) ].
Defined.

(** C5, as stated, fails: on a line that holds a superscript digit the
    function raises, where the sum of the claim is 0. *)
Lemma compute_checksum_superscript :
  compute_checksum superscript_two =
    Error (Raise ValueError (BadIntLiteral superscript_two)) /\
  checksum_spec superscript_two = 0.
Proof. split; reflexivity. Qed.

(** A checksum is a single decimal digit, which [str] prints as one
    character and [int] reads back. *)
Lemma str_of_digit (d : Z) :
  0 <= d < 10 ->
  exists c, str_of_int d = [c] /\ is_ascii_digit c = true /\ digit_value c = d.
Proof.
  intros H.
  assert (Hd : d = 0 \/ d = 1 \/ d = 2 \/ d = 3 \/ d = 4 \/
               d = 5 \/ d = 6 \/ d = 7 \/ d = 8 \/ d = 9) by lia.
  repeat (destruct Hd as [Hd | Hd]; [ subst d; eexists; repeat split | ]).
  subst d; eexists; repeat split.
Qed.

Lemma checksum_spec_range (line : str) : 0 <= checksum_spec line < 10.
Proof. unfold checksum_spec. apply Z.mod_pos_bound. lia. Qed.

Lemma sum_values_blanks (n : nat) :
  fold_right (fun c total => char_value c + total) 0 (repeat " "%char n) = 0.
Proof. induction n as [| n IH]; simpl; [ | rewrite IH ]; reflexivity. Qed.

Lemma sum_values_app (u v : str) :
  fold_right (fun c total => char_value c + total) 0 (u ++ v) =
  fold_right (fun c total => char_value c + total) 0 u +
  fold_right (fun c total => char_value c + total) 0 v.
Proof.
  induction u as [| c u IH]; simpl; [ reflexivity | rewrite IH; lia ].
Qed.

Lemma forallb_blanks (n : nat) : forallb plain_char (repeat " "%char n) = true.
Proof. induction n as [| n IH]; simpl; [ reflexivity | exact IH ]. Qed.

Lemma ljust_length (s : str) (n : nat) :
  (length s <= n)%nat -> length (ljust s n) = n.
Proof.
  intros H. unfold ljust. rewrite length_app, repeat_length. lia.
Qed.

(** The line [fix_checksum] builds: 68 characters and one for the digit. *)
Lemma firstn_68_fixed (body : str) (c : ascii) :
  length body = 68%nat -> firstn 68 (body ++ [c]) = body.
Proof.
  intros H. rewrite firstn_app.
  replace (68 - length body)%nat with 0%nat by lia.
  rewrite firstn_all2 by lia. apply app_nil_r.
Qed.

Lemma slice_68_fixed (body : str) (c : ascii) :
  length body = 68%nat -> slice (body ++ [c]) 68 69 = [c].
Proof.
  intros H. unfold slice. rewrite skipn_app.
  replace (68 - length body)%nat with 0%nat by lia.
  rewrite skipn_all2 by lia. reflexivity.
Qed.

(** C6, amended: on a line whose first 68 characters are plain (none is a
    superscript digit), [fix_checksum] returns
    those characters, padded with blanks to 68, followed by the digit of the
    computed checksum, and [verify_checksum] accepts the result. *)
Theorem fix_checksum_verifies (line : str) :
  plain_line line = true ->
  exists body digit,
    fix_checksum line = OK (body ++ [digit]) /\
    body = firstn 68 line ++ repeat " "%char (68 - length (firstn 68 line)) /\
    length body = 68%nat /\
    is_ascii_digit digit = true /\
    digit_value digit = checksum_spec line /\
    verify_checksum [body ++ [digit]] = OK tt.
Proof.
  intros Hplain.
  destruct (str_of_digit _ (checksum_spec_range line)) as (c & Hstr & Hdig & Hval).
  set (body := firstn 68 line ++ repeat " "%char (68 - length (firstn 68 line))).
  assert (Hlen : length body = 68%nat).
  { apply (ljust_length (firstn 68 line) 68). apply firstn_le_length. }
  exists body, c. repeat split; try assumption.
  - unfold fix_checksum. rewrite (compute_checksum_sum line Hplain).
    cbn [bind]. rewrite Hstr, slice_0. reflexivity.
  - assert (Hplain' : plain_line (body ++ [c]) = true).
    { unfold plain_line. rewrite (firstn_68_fixed body c Hlen). unfold body.
      rewrite forallb_app, forallb_blanks, andb_true_r. exact Hplain. }
    assert (Hsame : checksum_spec (body ++ [c]) = checksum_spec line).
    { unfold checksum_spec. rewrite (firstn_68_fixed body c Hlen). unfold body.
      rewrite sum_values_app, sum_values_blanks, Z.add_0_r. reflexivity. }
    cbn [verify_checksum]. rewrite (slice_68_fixed body c Hlen).
    assert (Hisd : isdigit [c] = true).
    { unfold isdigit, char_isdigit. simpl. rewrite Hdig. reflexivity. }
    rewrite Hisd. cbn [negb]. rewrite (int_of_digit c Hdig). cbn [bind].
    rewrite (compute_checksum_sum _ Hplain'). cbn [bind].
    rewrite Hsame, Hval, Z.eqb_refl. reflexivity.
Qed.

Lemma fix_checksum_verifies_witness :
  plain_line (L "1 00005U 58002B   00179.78495062  .00000023") = true /\
  exists body digit,
    fix_checksum (L "1 00005U 58002B   00179.78495062  .00000023")
      = OK (body ++ [digit]) /\
    body = firstn 68 (L "1 00005U 58002B   00179.78495062  .00000023") ++
           repeat " "%char
             (68 - length (firstn 68 (L "1 00005U 58002B   00179.78495062  .00000023"))) /\
    length body = 68%nat /\
    is_ascii_digit digit = true /\
    digit_value digit =
      checksum_spec (L "1 00005U 58002B   00179.78495062  .00000023") /\
    verify_checksum [body ++ [digit]] = OK tt.
Proof.
  split; [ reflexivity | ].
  exact (fix_checksum_verifies
           (L "1 00005U 58002B   00179.78495062  .00000023") eq_refl).
Defined.

(** C6, as stated, fails: on a line that holds a superscript digit
    [fix_checksum] raises and returns no line. *)
Lemma fix_checksum_superscript :
  fix_checksum superscript_two =
    Error (Raise ValueError (BadIntLiteral superscript_two)).
Proof. reflexivity. Qed.

(* ================================================================== *)
(** * The Satellite constructor *)
(* ================================================================== *)

Lemma OK_inj {A} (x y : A) : OK x = OK y -> x = y.
Proof. intros H. injection H as H. exact H. Qed.

Section Constructor.

Variable env : Env.

(** What a successful call of the constructor has stored. *)
Lemma Satellite__init___OK
    (g : EarthGravity) (sn : Z) (ep : datetime)
    (bs inc nod ecc arg m0 n0 nd ndd : float)
    (cls : str) (des : option str) (el rev : Z) (mode : bool)
    (sat : Satellite) :
  Satellite__init__ env g sn ep bs inc nod ecc arg m0 n0 nd ndd cls des el rev
    mode = OK sat ->
  float_pow env (fmul n0 (tumin g)) (fdiv (fneg (F 2)) (F 3)) = OK (a sat) /\
  alta sat = pynum_sub (pynum_mul (a sat) (fadd f1 ecc)) f1 /\
  altp sat = pynum_sub (pynum_mul (a sat) (fsub f1 ecc)) f1 /\
  satnum sat = sn /\ epoch sat = ep /\ epochyr sat = year ep /\
  ecco sat = ecc /\ no_kozai sat = n0 /\ inclo sat = inc /\
  bstar sat = bs /\ nddot sat = ndd /\ ndot sat = nd /\
  classification sat = cls /\ intldesg sat = des /\
  elnum sat = el /\ revnum sat = rev /\
  epochdays sat =
    fadd (F (days_since_jan1 ep + 1))
         (fdiv (fadd (fadd (F (hour ep)) (int_truediv (minute ep) 60))
                     (fdiv (fdiv (fadd (F (second ep))
                                       (fmul (float_of_decimal false 1 (-6))
                                             (F (microsecond ep))))
                                 (F 60)) (F 60)))
               (F 24)).
Proof.
  unfold Satellite__init__. intros H.
  apply bind_OK in H. destruct H as (a0 & Hpow & H).
  match type of H with OK ?built = _ =>
    assert (E : sat = built) by congruence end.
  clear H. subst sat. repeat split; first [ exact Hpow | reflexivity ].
Qed.



(** The two altitudes on numbers that binary64 holds exactly: for
    [a = 2.0] and [e = 0.5] they are 2.0 and 0.0, and the literals are 1.0
    and [-2.0 / 3.0]. *)
Example derived_geometry_values :
  apogee_altitude (F 2) (float_of_ratio false 1 2) = F 2 /\
  perigee_altitude (F 2) (float_of_ratio false 1 2) = S754_zero false /\
  one = F 1 /\ minus_two_thirds = fdiv (fneg (F 2)) (F 3).
Proof. repeat split. Qed.

End Constructor.

(* ================================================================== *)
(** * The parser *)
(* ================================================================== *)

Lemma datetime_new_year (y mo d h mi s us : Z) (t : datetime) :
  datetime_new y mo d h mi s us = OK t -> year t = y.
Proof.
  unfold datetime_new.
  destruct ((1 <=? y) && (y <=? 9999) && (1 <=? mo) && (mo <=? 12) &&
            (1 <=? d) && (d <=? days_in_month y mo) && (0 <=? h) &&
            (h <=? 23) && (0 <=? mi) && (mi <=? 59) && (0 <=? s) &&
            (s <=? 59) && (0 <=? us) && (us <=? 999999));
    intros H; [ injection H as <-; reflexivity | discriminate H ].
Qed.

(** What an accepted second line has stored for the eccentricity. *)
Lemma read_line2_ecco (saved : Z) (longstr2 : str) (r2 : Line2) :
  read_line2 saved longstr2 = OK r2 ->
  float_of_str (L "0." ++ replace " " "0" (slice (rstrip longstr2) 26 33))
    = OK (l2_ecco r2).
Proof.
  unfold read_line2. destruct (line2_matches (rstrip longstr2));
    [ | discriminate ].
  intros H. apply bind_OK in H. destruct H as (sn & _ & H).
  destruct (negb (saved =? sn)); [ discriminate H | ].
  apply bind_OK in H. destruct H as (inc & _ & H).
  apply bind_OK in H. destruct H as (nod & _ & H).
  apply bind_OK in H. destruct H as (ecc & Hecc & H).
  apply bind_OK in H. destruct H as (arg & _ & H).
  apply bind_OK in H. destruct H as (m0 & _ & H).
  apply bind_OK in H. destruct H as (n0 & _ & H).
  apply bind_OK in H. destruct H as (rev & _ & H).
  injection H as <-. exact Hecc.
Qed.

Section Parser.

Variable env : Env.

(** What a successful call of [twoline2rv] has read and stored. *)
Lemma twoline2rv_OK (longstr1 longstr2 : str) (g : EarthGravity) (mode : bool)
    (sat : Satellite) :
  twoline2rv env longstr1 longstr2 g mode = OK sat ->
  exists r1 r2 p q,
    read_line1 longstr1 = OK r1 /\
    read_line2 (l1_satnum r1) longstr2 = OK r2 /\
    math_pow env (F 10) (F (l1_nexp r1)) = OK p /\
    math_pow env (F 10) (F (l1_ibexp r1)) = OK q /\
    epochyr sat = four_digit_year (l1_two_digit_year r1) /\
    year (epoch sat) = four_digit_year (l1_two_digit_year r1) /\
    satnum sat = l2_satnum r2 /\
    ecco sat = l2_ecco r2 /\
    ndot sat = fdiv (l1_ndot r1) (fmul xpdotp (F 1440)) /\
    nddot sat = fdiv (fmul (l1_nddot r1) p)
                     (fmul (fmul xpdotp (F 1440)) (F 1440)) /\
    bstar sat = fmul (l1_bstar r1) q /\
    classification sat = l1_classification r1 /\
    intldesg sat = Some (l1_intldesg r1) /\
    elnum sat = l1_elnum r1 /\
    revnum sat = l2_revnum r2.
Proof.
  unfold twoline2rv. intros H.
  apply bind_OK in H. destruct H as (r1 & H1 & H).
  apply bind_OK in H. destruct H as (r2 & H2 & H).
  apply bind_OK in H. destruct H as (p & Hp & H).
  apply bind_OK in H. destruct H as (q & Hq & H).
  destruct (days2mdhms env (four_digit_year (l1_two_digit_year r1))
              (l1_epochdays r1)) as [[[[mon dy] hr] mi] sec].
  apply bind_OK in H. destruct H as ([sec_whole sec_fraction] & _ & H).
  cbn beta iota in H.
  apply bind_OK in H. destruct H as (s & _ & H).
  apply bind_OK in H. destruct H as (us & _ & H).
  apply bind_OK in H. destruct H as (us' & _ & H).
  apply bind_OK in H. destruct H as (ep & Hep & H).
  apply datetime_new_year in Hep.
  apply Satellite__init___OK in H.
  destruct H as (_ & _ & _ & Hsn & Hepoch & Hyr & Hecc & _ & _ & Hbs & Hndd &
                 Hnd & Hcls & Hdes & Hel & Hrev & _).
  exists r1, r2, p, q. rewrite Hyr, Hepoch, Hep.
  repeat split; assumption.
Qed.

(** The year rule on its own. *)
Lemma four_digit_year_rule (y : Z) :
  (0 <= y <= 56 -> four_digit_year y = y + 2000) /\
  (57 <= y <= 99 -> four_digit_year y = y + 1900).
Proof.
  unfold four_digit_year. split; intros H.
  - replace (y <? 57) with true by (symmetry; apply Z.ltb_lt; lia).
    reflexivity.
  - replace (y <? 57) with false by (symmetry; apply Z.ltb_ge; lia).
    reflexivity.
Qed.

(** C7: the epoch year of the entity [twoline2rv] returns is the two-digit
    value read from columns 19-20 plus 2000 when that value is in 0..56, and
    plus 1900 when it is in 57..99. *)
Theorem epoch_year_rule (longstr1 longstr2 : str) (g : EarthGravity)
    (mode : bool) (sat : Satellite) :
  twoline2rv env longstr1 longstr2 g mode = OK sat ->
  exists two_digit_year,
    int_of_str (slice (rstrip longstr1) 18 20) = OK two_digit_year /\
    (0 <= two_digit_year <= 56 ->
       epochyr sat = two_digit_year + 2000 /\
       year (epoch sat) = two_digit_year + 2000) /\
    (57 <= two_digit_year <= 99 ->
       epochyr sat = two_digit_year + 1900 /\
       year (epoch sat) = two_digit_year + 1900).
Proof.
  intros H. apply twoline2rv_OK in H.
  destruct H as (r1 & r2 & p & q & H1 & _ & _ & _ & Hyr & Hep & _).
  exists (l1_two_digit_year r1). split.
  - revert H1. unfold read_line1.
    destruct (line1_matches (rstrip longstr1)); [ | discriminate ].
    intros H. apply bind_OK in H. destruct H as (sn & _ & H).
    apply bind_OK in H. destruct H as (yy & Hyy & H).
    apply bind_OK in H. destruct H as (ed & _ & H).
    apply bind_OK in H. destruct H as (nd & _ & H).
    apply bind_OK in H. destruct H as (ndd & _ & H).
    apply bind_OK in H. destruct H as (nexp & _ & H).
    apply bind_OK in H. destruct H as (bs & _ & H).
    apply bind_OK in H. destruct H as (ib & _ & H).
    apply bind_OK in H. destruct H as (el & _ & H).
    injection H as <-. exact Hyy.
  - rewrite Hyr, Hep.
    destruct (four_digit_year_rule (l1_two_digit_year r1)) as [Hlo Hhi].
    split; intros Hy; [ rewrite (Hlo Hy) | rewrite (Hhi Hy) ]; split;
      reflexivity.
Qed.

(** C10: in a pair that [twoline2rv] accepts, the eccentricity is the float
    read from ["0."] followed by columns 27-33 of line 2 with every blank
    turned into ["0"]; a field of seven blanks gives 0.0. *)
Theorem eccentricity_blanks (longstr1 longstr2 : str) (g : EarthGravity)
    (mode : bool) (sat : Satellite) :
  twoline2rv env longstr1 longstr2 g mode = OK sat ->
  float_of_str
    (L "0." ++
     map (fun c => if Ascii.eqb c " " then "0"%char else c)
         (slice (rstrip longstr2) 26 33)) = OK (ecco sat) /\
  (slice (rstrip longstr2) 26 33 = L "       " -> ecco sat = S754_zero false).
Proof.
  intros H. apply twoline2rv_OK in H.
  destruct H as (r1 & r2 & p & q & _ & H2 & _ & _ & _ & _ & _ & Hecc & _).
  apply read_line2_ecco in H2. rewrite Hecc. split.
  - exact H2.
  - intros Hblank. rewrite Hblank in H2.
    assert (E : float_of_str (L "0." ++ replace " " "0" (L "       "))
                = OK (S754_zero false)) by reflexivity.
    rewrite E in H2. injection H2 as H2. symmetry. exact H2.
Qed.

End Parser.

(** ** Template violations *)

(** [rstrip] only removes characters at the end. *)
Lemma rstrip_prefix (s : str) : exists t, s = rstrip s ++ t.
Proof.
  induction s as [| c s [t IH]].
  - exists []. reflexivity.
  - cbn [rstrip]. destruct (rstrip s) as [| x xs] eqn:E.
    + destruct (char_isspace c).
      * exists (c :: s). reflexivity.
      * exists s. reflexivity.
    + exists t. cbn. f_equal. exact IH.
Qed.

Lemma rstrip_nth (s : str) (i : nat) (c : ascii) :
  nth_error (rstrip s) i = Some c -> nth_error s i = Some c.
Proof.
  intros H. destruct (rstrip_prefix s) as [t Ht]. rewrite Ht.
  rewrite nth_error_app1; [ exact H | ].
  apply nth_error_Some. rewrite H. discriminate.
Qed.

Lemma char_is_nth (s : str) (i : nat) (c : ascii) :
  char_is s i c = true -> nth_error s i = Some c.
Proof.
  unfold char_is. destruct (nth_error s i) as [x |]; [ | discriminate ].
  intros H. apply Ascii.eqb_eq in H. congruence.
Qed.

Lemma startswith_2 (s : str) (c0 c1 : ascii) :
  startswith s [c0; c1] = true ->
  nth_error s 0 = Some c0 /\ nth_error s 1 = Some c1.
Proof.
  unfold startswith. intros H. apply andb_true_iff in H. destruct H as [H _].
  apply str_eqb_eq in H. destruct s as [| x [| y s]]; try discriminate H.
  cbn in H. injection H as -> ->. split; reflexivity.
Qed.

Lemma line1_matches_positions (line : str) :
  line1_matches line = true ->
  forall i c, In (i, c) LINE1_positions -> nth_error line i = Some c.
Proof.
  unfold line1_matches. intros H.
  repeat (apply andb_true_iff in H; destruct H as [H ?]).
  match goal with S : startswith _ _ = true |- _ =>
    apply startswith_2 in S; destruct S end.
  repeat match goal with C : char_is _ _ _ = true |- _ =>
    apply char_is_nth in C end.
  intros i c Hin. cbn in Hin.
  repeat (destruct Hin as [Hin | Hin]; [ injection Hin as <- <-; assumption | ]).
  contradiction.
Qed.

Lemma line2_matches_positions (line : str) :
  line2_matches line = true ->
  forall i c, In (i, c) LINE2_positions -> nth_error line i = Some c.
Proof.
  unfold line2_matches. intros H.
  repeat (apply andb_true_iff in H; destruct H as [H ?]).
  match goal with S : startswith _ _ = true |- _ =>
    apply startswith_2 in S; destruct S end.
  repeat match goal with C : char_is _ _ _ = true |- _ =>
    apply char_is_nth in C end.
  intros i c Hin. cbn in Hin.
  repeat (destruct Hin as [Hin | Hin]; [ injection Hin as <- <-; assumption | ]).
  contradiction.
Qed.

(** A raw line that breaks the template does so after [rstrip] too. *)
Lemma violates_line1 (longstr1 : str) :
  violates LINE1_positions longstr1 -> line1_matches (rstrip longstr1) = false.
Proof.
  intros (i & c & Hin & Hne).
  destruct (line1_matches (rstrip longstr1)) eqn:E; [ | reflexivity ].
  exfalso. apply Hne. apply rstrip_nth.
  exact (line1_matches_positions _ E i c Hin).
Qed.

Lemma violates_line2 (longstr2 : str) :
  violates LINE2_positions longstr2 -> line2_matches (rstrip longstr2) = false.
Proof.
  intros (i & c & Hin & Hne).
  destruct (line2_matches (rstrip longstr2)) eqn:E; [ | reflexivity ].
  exfalso. apply Hne. apply rstrip_nth.
  exact (line2_matches_positions _ E i c Hin).
Qed.

Section Template.

Variable env : Env.

(** C8, amended: when line 1 breaks one of the positions [twoline2rv]
    compares, the call raises the format error for line 1, whose text names
    the line number, the template and the line given; when line 2 does, the
    call raises and returns no entity, and the error is the format error for
    line 2 whenever line 1 was read without error. *)
Theorem template_violation (longstr1 longstr2 : str) (g : EarthGravity)
    (mode : bool) :
  (violates LINE1_positions longstr1 ->
   twoline2rv env longstr1 longstr2 g mode =
     Error (Raise ValueError (Text (error_message 1 LINE1 (rstrip longstr1)))))
  /\
  (violates LINE2_positions longstr2 ->
   is_error (twoline2rv env longstr1 longstr2 g mode) = true /\
   forall r1, read_line1 longstr1 = OK r1 ->
     twoline2rv env longstr1 longstr2 g mode =
       Error (Raise ValueError (Text (error_message 2 LINE2 (rstrip longstr2))))).
Proof.
  split; intros Hv.
  - apply violates_line1 in Hv. unfold twoline2rv, read_line1.
    rewrite Hv. reflexivity.
  - apply violates_line2 in Hv.
    assert (H2 : forall saved, read_line2 saved longstr2 =
              Error (Raise ValueError
                       (Text (error_message 2 LINE2 (rstrip longstr2))))).
    { intros saved. unfold read_line2. rewrite Hv. reflexivity. }
    split.
    + unfold twoline2rv. destruct (read_line1 longstr1) as [r1 | e];
        [ cbn [bind]; rewrite H2 | ]; reflexivity.
    + intros r1 H1. unfold twoline2rv. rewrite H1. cbn [bind]. rewrite H2.
      reflexivity.
Qed.

End Template.

Lemma template_violation_witness :
  violates LINE2_positions broken2 /\
  is_error (twoline2rv sample_env vanguard1 broken2 sample_gravity false) = true.
Proof.
  assert (Hv : violates LINE2_positions broken2).
  { exists 7%nat, " "%char. split; [ cbn; tauto | discriminate ]. }
  split; [ exact Hv | ].
  exact (proj1 (proj2 (template_violation sample_env vanguard1 broken2
                         sample_gravity false) Hv)).
Defined.

(** C8, as stated, fails in two ways. With letters for the satellite number
    of line 1 and a letter in the blank at position 7 of line 2, the error is
    the one [int] raises, which names neither a line number nor a template.
    And position 17 of line 1, a blank of the template, is not compared at
    all: a letter there is accepted. *)
Lemma template_violation_unreported :
  (violates LINE2_positions broken2 /\
   forall env g mode,
     twoline2rv env lettered1 broken2 g mode =
       Error (Raise ValueError (BadIntLiteral (L "ABCDE")))) /\
  (nth_error LINE1 17 = Some " "%char /\
   nth_error marked1 17 = Some "X"%char /\
   is_error (read_line1 marked1) = false /\
   is_error (twoline2rv sample_env marked1 vanguard2 sample_gravity false)
     = false).
Proof.
  split; [ split | ].
  - exists 7%nat, " "%char. split; [ cbn; tauto | discriminate ].
  - intros env g mode. reflexivity.
  - repeat split; vm_compute; reflexivity.
Qed.

(* ================================================================== *)
(** * Checksums and the parser *)
(* ================================================================== *)

Lemma skipn_nth {A} (s : list A) (i : nat) (c : A) :
  nth_error s i = Some c -> exists r, skipn i s = c :: r.
Proof.
  revert s. induction i as [| i IH]; intros [| x s] H; try discriminate H.
  - injection H as ->. exists s. reflexivity.
  - apply IH. exact H.
Qed.

Lemma slice_nth {A} (s : list A) (i : nat) (c : A) :
  nth_error s i = Some c -> slice s i (S i) = [c].
Proof.
  intros H. unfold slice. destruct (skipn_nth s i c H) as [r ->].
  replace (S i - i)%nat with 1%nat by lia. reflexivity.
Qed.

(** When the sum goes through, every character was plain. *)
Lemma sum_terms_OK_plain (chars : str) (acc v : Z) :
  sum_terms chars acc = OK v -> forallb plain_char chars = true.
Proof.
  revert acc. induction chars as [| c rest IH]; intros acc H;
    [ reflexivity | ].
  cbn [sum_terms] in H. apply bind_OK in H. destruct H as (t & Ht & H).
  cbn [forallb]. rewrite (IH _ H), andb_true_r.
  destruct (plain_char c) eqn:E; [ reflexivity | ].
  exfalso. revert Ht E. clear.
  destruct c as [[] [] [] [] [] [] [] []]; intros Ht E;
    solve [ discriminate E | discriminate Ht ].
Qed.

Lemma compute_checksum_OK (line : str) (v : Z) :
  compute_checksum line = OK v -> v = checksum_spec line.
Proof.
  intros H. assert (Hp : plain_line line = true).
  { unfold compute_checksum in H. apply bind_OK in H.
    destruct H as (t & Ht & _). rewrite slice_0 in Ht.
    exact (sum_terms_OK_plain _ _ _ Ht). }
  rewrite (compute_checksum_sum line Hp) in H. congruence.
Qed.

(** What [verify_checksum] does with a line whose digit is wrong. *)
Lemma verify_checksum_head (line : str) (rest : list str) :
  checksum_mismatch line ->
  is_error (verify_checksum (line :: rest)) = true /\
  (plain_line line = true ->
   exists d, nth_error line 68 = Some d /\
     verify_checksum (line :: rest) =
       Error (Raise ValueError
                (Text (complaint (digit_value d) (checksum_spec line) line)))).
Proof.
  intros (d & Hnth & Hdig & Hne).
  assert (Hisd : isdigit [d] = true).
  { unfold isdigit, char_isdigit. simpl. rewrite Hdig. reflexivity. }
  assert (Hno : (digit_value d =? checksum_spec line) = false)
    by (apply Z.eqb_neq; exact Hne).
  cbn [verify_checksum]. rewrite (slice_nth line 68 d Hnth), Hisd.
  cbn [negb]. rewrite (int_of_digit d Hdig). cbn [bind]. split.
  - destruct (compute_checksum line) as [v | e] eqn:E; [ | reflexivity ].
    apply compute_checksum_OK in E. subst v. cbn [bind]. rewrite Hno.
    reflexivity.
  - intros Hp. exists d. split; [ exact Hnth | ].
    rewrite (compute_checksum_sum line Hp). cbn [bind]. rewrite Hno.
    reflexivity.
Qed.

(** A line whose digit is wrong makes [verify_checksum] raise, wherever it
    stands among the lines. *)
Lemma verify_checksum_rejects (lines : list str) (line : str) :
  In line lines -> checksum_mismatch line ->
  is_error (verify_checksum lines) = true.
Proof.
  intros Hin Hbad. induction lines as [| h rest IH]; [ contradiction | ].
  destruct Hin as [-> | Hin].
  - exact (proj1 (verify_checksum_head line rest Hbad)).
  - specialize (IH Hin). cbn [verify_checksum].
    destruct (negb (isdigit (slice h 68 69))); [ exact IH | ].
    destruct (int_of_str (slice h 68 69)) as [cs | e]; [ | reflexivity ].
    cbn [bind]. destruct (compute_checksum h) as [v | e]; [ | reflexivity ].
    cbn [bind]. destruct (negb (cs =? v)); [ reflexivity | exact IH ].
Qed.

(** ** The parser does not read column 69 *)

Lemma slice_app_l {A} (b x : list A) (i k : nat) :
  (k <= length b)%nat -> slice (b ++ x) i k = slice b i k.
Proof.
  intros H. unfold slice. rewrite skipn_app, firstn_app, length_skipn.
  replace (k - i - (length b - i))%nat with 0%nat by lia.
  cbn [firstn]. apply app_nil_r.
Qed.

Lemma char_is_app_l (b x : str) (i : nat) (c : ascii) :
  (i < length b)%nat -> char_is (b ++ x) i c = char_is b i c.
Proof.
  intros H. unfold char_is. rewrite nth_error_app1 by exact H. reflexivity.
Qed.

Lemma startswith_app_l (b x p : str) :
  (length p <= length b)%nat -> startswith (b ++ x) p = startswith b p.
Proof.
  intros H. unfold startswith. rewrite firstn_app, length_app.
  replace (length p - length b)%nat with 0%nat by lia.
  cbn [firstn]. rewrite app_nil_r. f_equal.
  transitivity true; [ | symmetry ]; apply Nat.leb_le; lia.
Qed.

(** [rstrip] stops at a character that is not whitespace. *)
Lemma rstrip_app_nonspace (b t : str) (c : ascii) :
  char_isspace c = false -> rstrip (b ++ c :: t) = b ++ c :: rstrip t.
Proof.
  intros Hc. induction b as [| x b IH].
  - cbn [app rstrip]. destruct (rstrip t); [ rewrite Hc | ]; reflexivity.
  - cbn [app rstrip]. rewrite IH. destruct b; reflexivity.
Qed.

Lemma digit_not_space (c : ascii) :
  is_ascii_digit c = true -> char_isspace c = false.
Proof.
  destruct c as [[] [] [] [] [] [] [] []]; intros H; try discriminate H;
    reflexivity.
Qed.

(** A line with a character at position 68, split around it. *)
Lemma split_at_68 (line : str) (d : ascii) :
  nth_error line 68 = Some d ->
  line = firstn 68 line ++ d :: skipn 69 line /\
  length (firstn 68 line) = 68%nat.
Proof.
  intros H. split.
  - rewrite <- (firstn_skipn 68 line) at 1. f_equal.
    destruct (skipn_nth line 68 d H) as [r Hr].
    rewrite Hr. f_equal.
    change 69%nat with (1 + 68)%nat. rewrite <- skipn_skipn, Hr. reflexivity.
  - apply firstn_length_le. apply Nat.lt_le_incl. apply nth_error_Some.
    rewrite H. discriminate.
Qed.

(** After [rstrip], two lines that differ in the digit of column 69 share
    their first 68 characters and hold at least 69. *)
Lemma same_but_checksum_rstrip (line line' : str) :
  same_but_checksum line line' ->
  exists b x y, length b = 68%nat /\
    rstrip line = b ++ x /\ rstrip line' = b ++ y /\
    (1 <= length x)%nat /\ (1 <= length y)%nat.
Proof.
  intros (Hb & Ht & d & d' & Hd & Hd' & Hdig & Hdig').
  destruct (split_at_68 line d Hd) as [E Hlen].
  destruct (split_at_68 line' d' Hd') as [E' _].
  exists (firstn 68 line), (d :: rstrip (skipn 69 line)),
         (d' :: rstrip (skipn 69 line)).
  split; [ exact Hlen | ]. split; [ | split ].
  - rewrite E at 1. apply rstrip_app_nonspace, digit_not_space, Hdig.
  - rewrite E' at 1. rewrite <- Hb, <- Ht.
    apply rstrip_app_nonspace, digit_not_space, Hdig'.
  - cbn [length]. lia.
Qed.

Ltac on_prefix Hb :=
  unfold at_;
  rewrite ?slice_app_l by (rewrite Hb; cbn; lia);
  rewrite ?char_is_app_l by (rewrite Hb; cbn; lia);
  rewrite ?startswith_app_l by (rewrite Hb; cbn; lia).

Lemma line1_matches_prefix (b x : str) :
  length b = 68%nat ->
  line1_matches (b ++ x) = line1_matches (b ++ []).
Proof.
  intros Hb. unfold line1_matches. on_prefix Hb. rewrite !length_app, Hb.
  reflexivity.
Qed.

Lemma line2_matches_prefix (b x y : str) :
  length b = 68%nat -> (1 <= length x)%nat -> (1 <= length y)%nat ->
  line2_matches (b ++ x) = line2_matches (b ++ y).
Proof.
  intros Hb Hx Hy. unfold line2_matches. on_prefix Hb.
  rewrite !length_app, Hb.
  replace (69 <=? 68 + length x)%nat with true
    by (symmetry; apply Nat.leb_le; lia).
  replace (69 <=? 68 + length y)%nat with true
    by (symmetry; apply Nat.leb_le; lia).
  reflexivity.
Qed.

Lemma read_line1_same (line line' : str) (r1 : Line1) :
  same_but_checksum line line' ->
  read_line1 line = OK r1 -> read_line1 line' = OK r1.
Proof.
  intros Hsame. destruct (same_but_checksum_rstrip _ _ Hsame)
    as (b & x & y & Hb & E & E' & _ & _).
  unfold read_line1. rewrite E, E'.
  rewrite (line1_matches_prefix b x Hb), (line1_matches_prefix b y Hb).
  destruct (line1_matches (b ++ [])); [ | discriminate ].
  on_prefix Hb. exact (fun H => H).
Qed.

Lemma read_line2_same (saved : Z) (line line' : str) (r2 : Line2) :
  same_but_checksum line line' ->
  read_line2 saved line = OK r2 -> read_line2 saved line' = OK r2.
Proof.
  intros Hsame. destruct (same_but_checksum_rstrip _ _ Hsame)
    as (b & x & y & Hb & E & E' & Hx & Hy).
  unfold read_line2. rewrite E, E'.
  rewrite (line2_matches_prefix b x y Hb Hx Hy).
  destruct (line2_matches (b ++ y)); [ | discriminate ].
  on_prefix Hb. exact (fun H => H).
Qed.

Lemma same_but_checksum_sym (line line' : str) :
  same_but_checksum line line' -> same_but_checksum line' line.
Proof.
  intros (Hb & Ht & d & d' & Hd & Hd' & Hdig & Hdig').
  repeat split; [ congruence | congruence | ]. exists d', d. auto.
Qed.

Section ChecksumAndParser.

Variable env : Env.

Lemma twoline2rv_same (l1 l2 l1' l2' : str) (g : EarthGravity) (mode : bool)
    (sat : Satellite) :
  same_but_checksum l1 l1' -> same_but_checksum l2 l2' ->
  twoline2rv env l1 l2 g mode = OK sat ->
  twoline2rv env l1' l2' g mode = OK sat.
Proof.
  intros S1 S2 H. unfold twoline2rv in *.
  apply bind_OK in H. destruct H as (r1 & H1 & H).
  apply bind_OK in H. destruct H as (r2 & H2 & H).
  rewrite (read_line1_same _ _ _ S1 H1). cbn [bind].
  rewrite (read_line2_same _ _ _ _ S2 H2). cbn [bind]. exact H.
Qed.

(** C3, amended: for two lines of the characters U+0000 to U+00FF, when the
    69th character of one of them is a decimal digit other than the checksum
    of its first 68 characters, [verify_checksum] raises on the pair; it
    raises the complaint that names both values and the line when line 1 is
    the one at fault and has no superscript digit among its first 68
    characters. [twoline2rv] does not verify: it builds the same entity, or
    none, whatever digits stand in column 69. *)
Theorem wrong_checksum (l1 l2 : str) (g : EarthGravity) (mode : bool) :
  checksum_mismatch l1 \/ checksum_mismatch l2 ->
  is_error (verify_checksum [l1; l2]) = true /\
  (checksum_mismatch l1 -> plain_line l1 = true ->
   exists d, nth_error l1 68 = Some d /\
     verify_checksum [l1; l2] =
       Error (Raise ValueError
                (Text (complaint (digit_value d) (checksum_spec l1) l1)))) /\
  forall l1' l2' sat,
    same_but_checksum l1 l1' -> same_but_checksum l2 l2' ->
    (twoline2rv env l1 l2 g mode = OK sat <->
     twoline2rv env l1' l2' g mode = OK sat).
Proof.
  intros Hbad. split; [ | split ].
  - destruct Hbad as [Hbad | Hbad].
    + apply (verify_checksum_rejects _ l1); [ left; reflexivity | exact Hbad ].
    + apply (verify_checksum_rejects _ l2);
        [ right; left; reflexivity | exact Hbad ].
  - intros H1. exact (proj2 (verify_checksum_head l1 [l2] H1)).
  - intros l1' l2' sat S1 S2. split; apply twoline2rv_same;
      auto using same_but_checksum_sym.
Qed.

End ChecksumAndParser.

(* ================================================================== *)
(** * The formatter *)
(* ================================================================== *)

Lemma set_item_OK (lst : list str) (i : nat) (v : str) :
  (i < length lst)%nat ->
  set_item lst i v = OK (firstn i lst ++ [v] ++ skipn (S i) lst).
Proof.
  intros H. unfold set_item.
  replace (i <? length lst)%nat with true
    by (symmetry; apply Nat.ltb_lt; exact H).
  reflexivity.
Qed.

Lemma set_slice_length (lst : list str) (i k : nat) (s : str) :
  length (set_slice lst i k s) =
  (Nat.min i (length lst) + length s + (length lst - k))%nat.
Proof.
  unfold set_slice.
  rewrite !length_app, length_firstn, length_map, length_skipn. lia.
Qed.

Lemma pad_length (fill : ascii) (al : align) (width : nat) (sign body : str) :
  (width <= length (pad fill al width sign body))%nat.
Proof.
  unfold pad. destruct al; rewrite !length_app, repeat_length; lia.
Qed.

Lemma Forall_firstn_skipn {A} (P : A -> Prop) (n : nat) (l : list A) :
  Forall P l -> Forall P (firstn n l) /\ Forall P (skipn n l).
Proof.
  intros H. rewrite <- (firstn_skipn n l) in H. apply Forall_app in H.
  exact H.
Qed.

Lemma wide_blank : wide 69 (map (fun c => [c]) (repeat " "%char 69)).
Proof.
  split; [ rewrite length_map, repeat_length; lia | ].
  apply Forall_forall. intros e He. apply in_map_iff in He.
  destruct He as (c & <- & _). cbn. lia.
Qed.

Lemma wide_set_item (n : nat) (lst lst' : list str) (i : nat) (v : str) :
  wide n lst -> (1 <= length v)%nat -> set_item lst i v = OK lst' ->
  wide n lst'.
Proof.
  intros [Hn Hall] Hv H. unfold set_item in H.
  destruct (i <? length lst)%nat eqn:E; [ | discriminate H ].
  apply Nat.ltb_lt in E.
  assert (E' : lst' = firstn i lst ++ [v] ++ skipn (S i) lst) by congruence.
  clear H. subst lst'. split.
  - change (firstn i lst ++ [v] ++ skipn (S i) lst)
      with (firstn i lst ++ v :: skipn (S i) lst).
    rewrite length_app, length_firstn.
    change (length (v :: skipn (S i) lst))
      with (S (length (skipn (S i) lst))).
    rewrite (length_skipn (S i) lst). lia.
  - apply Forall_app. split; [ apply (Forall_firstn_skipn _ _ _ Hall) | ].
    apply Forall_app. split; [ | apply (Forall_firstn_skipn _ _ _ Hall) ].
    constructor; [ exact Hv | constructor ].
Qed.

Lemma wide_set_slice (n m : nat) (lst : list str) (i k : nat) (s : str) :
  wide n lst -> (i <= k)%nat -> (k <= n)%nat ->
  (m + k <= n + i + length s)%nat ->
  wide m (set_slice lst i k s).
Proof.
  intros [Hn Hall] Hik Hkn Hm. split.
  - rewrite set_slice_length. lia.
  - unfold set_slice. apply Forall_app.
    split; [ apply (Forall_firstn_skipn _ _ _ Hall) | ].
    apply Forall_app. split; [ | apply (Forall_firstn_skipn _ _ _ Hall) ].
    apply Forall_forall. intros e He. apply in_map_iff in He.
    destruct He as (c & <- & _). cbn. lia.
Qed.

Lemma wide_join (n : nat) (lst : list str) :
  wide n lst -> (n <= length (join lst))%nat.
Proof.
  intros [Hn Hall]. unfold join. revert n Hn.
  induction Hall as [| e lst He Hall IH]; intros n Hn.
  - cbn in *. lia.
  - cbn [concat length] in *. rewrite length_app.
    specialize (IH (n - 1)%nat). lia.
Qed.

Lemma wide_le (n m : nat) (lst : list str) :
  wide n lst -> (m <= n)%nat -> wide m lst.
Proof. intros [Hn Hall] H. split; [ lia | exact Hall ]. Qed.

Section Formatter.

Variable env : Env.

(** On an entity without international designator the formatter raises at
    [line1_out_list[9:15] = satrec.intldesg]. *)
Lemma rv2twoline_no_designator (satrec : Satellite) :
  intldesg satrec = None ->
  rv2twoline env satrec = Error (Raise TypeError NotIterable).
Proof.
  intros Hnone. unfold rv2twoline, rv2twoline_line1.
  rewrite set_item_OK by (rewrite length_map, repeat_length; lia).
  cbn [bind].
  rewrite set_item_OK.
  - cbn [bind]. rewrite Hnone. reflexivity.
  - rewrite set_slice_length, !length_app, length_firstn, length_skipn,
      length_map, repeat_length. cbn [length].
    pose proof (pad_length "0" AlignSign 5
                  (if satnum satrec <? 0 then L "-" else [])
                  (str_of_int (Z.abs (satnum satrec)))) as Hp.
    unfold format_d. lia.
Qed.

(** On an entity of inclination zero the formatter raises: [math.log10] has
    no value at 0.0. *)
Lemma log10_zero_inclination (s : bool) :
  math_log10 env (fdiv (S754_zero s) deg2rad) =
  Error (Raise ValueError MathDomain).
Proof. destruct s; vm_compute; reflexivity. Qed.

Lemma rv2twoline_zero_inclination (satrec : Satellite) :
  is_zero (inclo satrec) = true ->
  exists e, rv2twoline env satrec = Error e.
Proof.
  intros Hz. unfold rv2twoline.
  destruct (rv2twoline_line1 env satrec) as [line1 | e];
    [ cbn [bind] | exists e; reflexivity ].
  exists (Raise ValueError MathDomain).
  unfold rv2twoline_line2.
  rewrite set_item_OK by (rewrite length_map, repeat_length; lia).
  cbn [bind]. cbv zeta.
  destruct (inclo satrec) as [s | s | | s m e]; try discriminate Hz.
  rewrite log10_zero_inclination. reflexivity.
Qed.

(** C2 fails on an entity built without international designator, the
    default of the constructor, and on an entity built with inclination 0.0:
    the formatter raises, and there are no two lines to parse. *)
Theorem unformattable_entity
    (g : EarthGravity) (sn : Z) (ep : datetime)
    (bs inc nod ecc arg m0 n0 nd ndd : float)
    (cls : str) (des : option str) (el rev : Z) (mode : bool)
    (sat : Satellite) :
  Satellite__init__ env g sn ep bs inc nod ecc arg m0 n0 nd ndd cls des el
    rev mode = OK sat ->
  des = None \/ is_zero inc = true ->
  exists e, rv2twoline env sat = Error e.
Proof.
  intros H Hbad. apply Satellite__init___OK in H.
  destruct H as (_ & _ & _ & _ & _ & _ & _ & _ & Hinc & _ & _ & _ & _ & Hdes
                 & _).
  destruct Hbad as [-> | Hz].
  - exists (Raise TypeError NotIterable).
    apply rv2twoline_no_designator. exact Hdes.
  - apply rv2twoline_zero_inclination. rewrite Hinc. exact Hz.
Qed.

(** The first line of an entity whose designator has eight characters, as
    [twoline2rv] stores it, and whose drag term and second derivative are
    zero: at least 71 characters. *)
Lemma rv2twoline_line1_wide (satrec : Satellite) (d out : str) :
  rv2twoline_line1 env satrec = OK out ->
  intldesg satrec = Some d -> length d = 8%nat ->
  (1 <= length (classification satrec))%nat ->
  (2 <= length (last_n (str_of_int (epochyr satrec)) 2))%nat ->
  (8 <= length (after_last_dot
                  (format_f " " AlignSign 8 8
                     (fmul (ndot satrec) (fmul xpdotp (F 1440))))))%nat ->
  feq (nddot satrec) f0 = true -> feq (bstar satrec) f0 = true ->
  (71 <= length out)%nat.
Proof.
  intros H Hd Hlen Hcls Hyr Hnd Hndd Hbs.
  unfold rv2twoline_line1 in H. cbv zeta in H.
  apply bind_OK in H. destruct H as (la & Ha & H).
  apply bind_OK in H. destruct H as (lb & Hb & H).
  rewrite Hd in H. cbn [bind] in H. rewrite Hndd in H. cbn [bind] in H.
  rewrite Hbs in H. cbn [bind] in H.
  apply bind_OK in H. destruct H as (lc & Hc & H).
  apply bind_OK in H. destruct H as (cs & Hcs & H).
  apply bind_OK in H. destruct H as (le & He & H).
  injection H as <-. apply wide_join.
  assert (Wa : wide 69 la)
    by (refine (wide_set_item 69 _ _ _ _ wide_blank _ Ha); cbn; lia).
  assert (W1 : wide 69 (set_slice la 2 7
                          (format_d "0" AlignSign 5 (satnum satrec)))).
  { apply (wide_set_slice 69 69); [ exact Wa | lia | lia | ].
    pose proof (pad_length "0" AlignSign 5
                  (if satnum satrec <? 0 then L "-" else [])
                  (str_of_int (Z.abs (satnum satrec)))).
    unfold format_d. lia. }
  pose proof (wide_set_item _ _ _ _ _ W1 Hcls Hb) as Wb.
  apply compute_checksum_OK in Hcs.
  destruct (str_of_digit cs) as (c & Hstr & _);
    [ rewrite Hcs; apply checksum_spec_range | ].
  refine (wide_set_item 71 _ _ _ _ _ _ He); [ | rewrite Hstr; cbn; lia ].
  apply (wide_set_slice 71 71); [ | lia | lia | ].
  2: { pose proof (pad_length " " AlignRight 4
                     (if elnum satrec <? 0 then L "-" else [])
                     (str_of_int (Z.abs (elnum satrec)))).
       unfold format_d. lia. }
  refine (wide_set_item 71 _ _ _ _ _ _ Hc); [ | cbn; lia ].
  apply (wide_set_slice 71 71); [ | lia | lia | cbn; lia ].
  apply (wide_set_slice 71 71); [ | lia | lia | cbn; lia ].
  assert (W4 : wide 71
            (set_slice (set_slice (set_slice lb 9 15 d) 18 20
                          (last_n (str_of_int (epochyr satrec)) 2)) 20 32
               (format_f "0" AlignRight 12 8 (epochdays satrec)))).
  { apply (wide_set_slice 71 71); [ | lia | lia | ].
    2: { pose proof (pad_length "0" AlignRight 12
                       (if sign_bit (epochdays satrec) then L "-" else [])
                       (fixed_digits 8 (epochdays satrec))).
         unfold format_f. lia. }
    apply (wide_set_slice 71 71); [ | lia | lia | lia ].
    apply (wide_set_slice 69 71); [ exact Wb | lia | lia | lia ]. }
  destruct (flt (fmul (ndot satrec) (fmul xpdotp (F 1440))) f0);
    (apply (wide_set_slice 71 71);
     [ exact W4 | lia | lia
     | rewrite length_app;
       change (length (L "-.")) with 2%nat;
       change (length (L " .")) with 2%nat; lia ]).
Qed.

(** [math.pow] returns finite floats for finite arguments. *)
Lemma math_pow_finite (x y p : float) :
  is_finite x = true -> is_finite y = true ->
  math_pow env x y = OK p -> is_finite p = true.
Proof.
  intros Hx Hy. unfold math_pow. rewrite Hx, Hy. cbn [negb orb].
  destruct (libm_pow env x y) as [s | s | | s m e]; cbn.
  - intros H. injection H as <-. reflexivity.
  - destruct (feq x f0); discriminate.
  - discriminate.
  - intros H. injection H as <-. reflexivity.
Qed.

(** A zero mantissa stays zero, whatever finite power of ten scales it. *)
Lemma zero_scaled (p c : float) :
  is_finite p = true -> is_finite c = true -> is_zero c = false ->
  feq (fdiv (fmul f0 p) c) f0 = true /\ feq (fmul f0 p) f0 = true.
Proof.
  destruct p as [s | s | | s m e]; try discriminate;
    destruct c as [sc | sc | | sc mc ec]; try discriminate;
    intros _ _ _; destruct s; split; reflexivity.
Qed.

(** What [twoline2rv] reads on line 1 of the rocket body. *)
Lemma read_sl12_1 :
  exists r, read_line1 sl12_1 = OK r /\
    l1_classification r = L "U" /\ l1_intldesg r = L "83020D  " /\
    l1_two_digit_year r = 5 /\ l1_ndot r = f0 /\ l1_nddot r = f0 /\
    l1_bstar r = f0 /\ l1_nexp r = 0 /\ l1_ibexp r = 0.
Proof.
  eexists. split; [ vm_compute; reflexivity | ].
  repeat split.
Qed.

(** C1 fails on the element set of the SL-12 rocket body, a pair the parser
    accepts: the first line the formatter returns has at least 71 characters,
    where the original has 69, so it is not the original. *)
Theorem parsed_line1_not_reproduced (g : EarthGravity) (mode : bool)
    (sat : Satellite) (line1 line2 : str) :
  twoline2rv env sl12_1 sl12_2 g mode = OK sat ->
  rv2twoline env sat = OK (line1, line2) ->
  (71 <= length line1)%nat /\ length sl12_1 = 69%nat /\ line1 <> sl12_1.
Proof.
  intros H Hfmt.
  enough (Hlen : (71 <= length line1)%nat).
  { split; [ exact Hlen | ]. split; [ reflexivity | ].
    intros E. rewrite E in Hlen. cbn in Hlen. lia. }
  apply twoline2rv_OK in H.
  destruct H as (r1 & r2 & p & q & H1 & _ & Hp & Hq & Hyr & _ & _ & _ & Hnd &
                 Hndd & Hbs & Hcls & Hdes & _).
  destruct read_sl12_1 as (r & Er & Rcls & Rdes & Ryr & Rnd & Rndd & Rbs &
                           Rnexp & Ribexp).
  rewrite Er in H1. injection H1 as <-.
  rewrite Rnexp in Hp. rewrite Ribexp in Hq.
  apply math_pow_finite in Hp; [ | reflexivity | reflexivity ].
  apply math_pow_finite in Hq; [ | reflexivity | reflexivity ].
  unfold rv2twoline in Hfmt.
  apply bind_OK in Hfmt. destruct Hfmt as (o1 & Ho1 & Hfmt).
  apply bind_OK in Hfmt. destruct Hfmt as (o2 & _ & Hfmt).
  injection Hfmt as <- _.
  apply (rv2twoline_line1_wide sat (L "83020D  ") o1 Ho1).
  - rewrite Hdes, Rdes. reflexivity.
  - reflexivity.
  - rewrite Hcls, Rcls. cbn. lia.
  - rewrite Hyr, Ryr. cbn. lia.
  - rewrite Hnd, Rnd. vm_compute. lia.
  - rewrite Hndd, Rndd.
    apply zero_scaled; [ exact Hp | | ]; vm_compute; reflexivity.
  - rewrite Hbs, Rbs.
    apply (zero_scaled q f1); [ exact Hq | | ]; vm_compute; reflexivity.
Qed.

(** C4 fails on the rocket body built by direct construction with its
    designator in the eight columns of the format: the first line the
    formatter returns is the 69 characters of the element set followed by two
    blanks, 71 in all. *)
Theorem designator_widens_line1 (g : EarthGravity) (sat : Satellite)
    (line1 line2 : str) :
  Satellite__init__ env g 20413 sl12_epoch f0 sl12_inclo sl12_nodeo sl12_ecco
    sl12_argpo sl12_mo sl12_no_kozai f0 f0 (L "U") (Some (L "83020D  "))
    704 797 false = OK sat ->
  rv2twoline env sat = OK (line1, line2) ->
  line1 = sl12_1 ++ L "  " /\ length line1 = 71%nat.
Proof.
  intros H Hfmt. apply Satellite__init___OK in H.
  destruct H as (_ & _ & _ & Hsn & _ & Hyr & _ & _ & _ & Hbs & Hndd & Hnd &
                 Hcls & Hdes & Hel & _ & Hed).
  unfold rv2twoline in Hfmt.
  apply bind_OK in Hfmt. destruct Hfmt as (o1 & Ho1 & Hfmt).
  apply bind_OK in Hfmt. destruct Hfmt as (o2 & _ & Hfmt).
  injection Hfmt as <- _.
  unfold rv2twoline_line1 in Ho1.
  rewrite Hsn, Hyr, Hbs, Hndd, Hnd, Hcls, Hdes, Hel, Hed in Ho1.
  vm_compute in Ho1. injection Ho1 as <-. split; reflexivity.
Qed.

End Formatter.

(* ================================================================== *)
(** * The theorems at concrete inputs *)
(* ================================================================== *)


Lemma epoch_year_rule_witness :
  exists sat,
    twoline2rv sample_env vanguard1 vanguard2 sample_gravity false = OK sat /\
    exists two_digit_year,
      int_of_str (slice (rstrip vanguard1) 18 20) = OK two_digit_year /\
      (0 <= two_digit_year <= 56 ->
         epochyr sat = two_digit_year + 2000 /\
         year (epoch sat) = two_digit_year + 2000) /\
      (57 <= two_digit_year <= 99 ->
         epochyr sat = two_digit_year + 1900 /\
         year (epoch sat) = two_digit_year + 1900).
Proof.
  eexists. split; [ vm_compute; reflexivity | ].
  apply (epoch_year_rule sample_env vanguard1 vanguard2 sample_gravity false).
  vm_compute. reflexivity.
Defined.

Lemma eccentricity_blanks_witness :
  exists sat,
    twoline2rv sample_env vanguard1 circular2 sample_gravity false = OK sat /\
    (float_of_str
       (L "0." ++
        map (fun c => if Ascii.eqb c " " then "0"%char else c)
            (slice (rstrip circular2) 26 33)) = OK (ecco sat) /\
     (slice (rstrip circular2) 26 33 = L "       " ->
      ecco sat = S754_zero false)).
Proof.
  eexists. split; [ vm_compute; reflexivity | ].
  apply (eccentricity_blanks sample_env vanguard1 circular2 sample_gravity
           false).
  vm_compute. reflexivity.
Defined.

Lemma wrong_checksum_witness :
  (checksum_mismatch miscounted1 \/ checksum_mismatch vanguard2) /\
  (is_error (verify_checksum [miscounted1; vanguard2]) = true /\
   (checksum_mismatch miscounted1 -> plain_line miscounted1 = true ->
    exists d, nth_error miscounted1 68 = Some d /\
      verify_checksum [miscounted1; vanguard2] =
        Error (Raise ValueError
                 (Text (complaint (digit_value d) (checksum_spec miscounted1)
                          miscounted1)))) /\
   forall l1' l2' sat,
     same_but_checksum miscounted1 l1' -> same_but_checksum vanguard2 l2' ->
     (twoline2rv sample_env miscounted1 vanguard2 sample_gravity false
        = OK sat <->
      twoline2rv sample_env l1' l2' sample_gravity false = OK sat)).
Proof.
  assert (Hbad : checksum_mismatch miscounted1 \/ checksum_mismatch vanguard2).
  { left. exists "9"%char. repeat split. vm_compute. discriminate. }
  split; [ exact Hbad | ].
  exact (wrong_checksum sample_env miscounted1 vanguard2 sample_gravity false
           Hbad).
Defined.

(** C3, as stated, fails: line 1 of Vanguard 1 with 9 for its checksum, which
    is 3, is read like the line with the right digit, in every environment,
    and in the sample environment the entity is built. *)
Lemma wrong_checksum_accepted :
  nth_error miscounted1 68 = Some "9"%char /\
  compute_checksum miscounted1 = OK 3 /\
  is_error (twoline2rv sample_env miscounted1 vanguard2 sample_gravity false)
    = false /\
  forall env g mode,
    twoline2rv env miscounted1 vanguard2 g mode =
    twoline2rv env vanguard1 vanguard2 g mode.
Proof.
  split; [ reflexivity | ].
  split; [ vm_compute; reflexivity | ].
  split; [ vm_compute; reflexivity | ].
  intros env g mode. unfold twoline2rv.
  replace (read_line1 miscounted1) with (read_line1 vanguard1)
    by (vm_compute; reflexivity).
  reflexivity.
Qed.

Lemma parsed_line1_not_reproduced_witness :
  exists sat line1 line2,
    twoline2rv sample_env sl12_1 sl12_2 sample_gravity false = OK sat /\
    rv2twoline sample_env sat = OK (line1, line2) /\
    ((71 <= length line1)%nat /\ length sl12_1 = 69%nat /\ line1 <> sl12_1).
Proof.
  eexists. eexists. eexists.
  split; [ vm_compute; reflexivity | ].
  lazymatch goal with
  | |- rv2twoline ?e ?s = _ /\ _ =>
      let v := eval vm_compute in (rv2twoline e s) in
      lazymatch v with
      | OK (?o1, ?o2) =>
          split;
          [ vm_compute; reflexivity
          | apply (parsed_line1_not_reproduced e sample_gravity false s o1 o2);
            vm_compute; reflexivity ]
      end
  end.
Defined.

Lemma unformattable_entity_witness :
  exists sat,
    sl12_equatorial = OK sat /\
    (Some (L "83020D  ") = None \/ is_zero (S754_zero false) = true) /\
    exists e, rv2twoline sample_env sat = Error e.
Proof.
  eexists. split; [ vm_compute; reflexivity | ].
  assert (Hbad : Some (L "83020D  ") = None \/ is_zero (S754_zero false) = true)
    by (right; reflexivity).
  split; [ exact Hbad | ].
  refine (unformattable_entity sample_env sample_gravity 20413 sl12_epoch f0
            f0 sl12_nodeo sl12_ecco sl12_argpo sl12_mo sl12_no_kozai f0 f0
            (L "U") (Some (L "83020D  ")) 704 797 false _ _ Hbad).
  vm_compute. reflexivity.
Defined.

(** The two ways in which the formatter raises, in the sample environment. *)
Example formatter_raises :
  (exists sat, sl12_anonymous = OK sat /\
     rv2twoline sample_env sat = Error (Raise TypeError NotIterable)) /\
  (exists sat, sl12_equatorial = OK sat /\
     rv2twoline sample_env sat = Error (Raise ValueError MathDomain)).
Proof.
  split; eexists; (split; [ vm_compute; reflexivity | ]); vm_compute;
    reflexivity.
Qed.

Lemma designator_widens_line1_witness :
  exists sat line1 line2,
    sl12_entity = OK sat /\
    rv2twoline sample_env sat = OK (line1, line2) /\
    (line1 = sl12_1 ++ L "  " /\ length line1 = 71%nat).
Proof.
  eexists. eexists. eexists.
  split; [ vm_compute; reflexivity | ].
  lazymatch goal with
  | |- rv2twoline ?e ?s = _ /\ _ =>
      let v := eval vm_compute in (rv2twoline e s) in
      lazymatch v with
      | OK (?o1, ?o2) =>
          split;
          [ vm_compute; reflexivity
          | apply (designator_widens_line1 e sample_gravity s o1 o2);
            vm_compute; reflexivity ]
      end
  end.
Defined.

(* ================================================================== *)
(** * The model at work *)
(* ================================================================== *)

Example math_pi_literal : float_of_str (L "3.141592653589793") = OK pi.
Proof. reflexivity. Qed.

Example vanguard_checksums :
  compute_checksum vanguard1 = OK 3 /\ compute_checksum vanguard2 = OK 7 /\
  verify_checksum [vanguard1; vanguard2] = OK tt.
Proof. repeat split. Qed.

Example century_examples :
  four_digit_year 0 = 2000 /\ four_digit_year 56 = 2056 /\
  four_digit_year 57 = 1957 /\ four_digit_year 99 = 1999.
Proof. repeat split. Qed.

Example format_examples :
  format_f "0" AlignRight 12 8 (float_of_decimal false 17978495062 (-8))
    = L "179.78495062" /\
  format_f " " AlignRight 8 4 (float_of_decimal false 342682 (-4))
    = L " 34.2682" /\
  format_f " " AlignRight 8 4 (float_of_decimal false 3125 (-5))
    = L "  0.0312" /\
  format_d "0" AlignSign 5 5 = L "00005" /\
  format_d " " AlignRight 4 475 = L " 475".
Proof. repeat split; vm_compute; reflexivity. Qed.

(** With the designator in six characters the formatter returns the two lines
    of the element set, 69 characters each. *)
Example six_character_designator :
  exists sat,
    Satellite__init__ sample_env sample_gravity 20413 sl12_epoch f0 sl12_inclo
      sl12_nodeo sl12_ecco sl12_argpo sl12_mo sl12_no_kozai f0 f0 (L "U")
      (Some (L "83020D")) 704 797 false = OK sat /\
    rv2twoline sample_env sat = OK (sl12_1, sl12_2).
Proof.
  eexists. split; [ vm_compute; reflexivity | vm_compute; reflexivity ].
Qed.

(* ================================================================== *)
(** * More on the checksum functions *)
(* ================================================================== *)

(** A character that is not plain makes the term of the sum raise. *)
Lemma checksum_term_odd (c : ascii) :
  plain_char c = false ->
  (if isdigit [c] then int_of_str [c]
   else OK (if str_eqb [c] (L "-") then 1 else 0)) =
    Error (Raise ValueError (BadIntLiteral [c])) /\
  char_isdigit c = true /\ is_ascii_digit c = false.
Proof.
  destruct c as [[] [] [] [] [] [] [] []]; intros H; try discriminate H;
    repeat split.
Qed.

Lemma sum_terms_Error (chars : str) (acc : Z) (e : exn) :
  sum_terms chars acc = Error e ->
  exists c, In c chars /\ char_isdigit c = true /\
            is_ascii_digit c = false /\
            e = Raise ValueError (BadIntLiteral [c]).
Proof.
  revert acc. induction chars as [| c rest IH]; intros acc H;
    [ discriminate H | ].
  cbn [sum_terms] in H. destruct (plain_char c) eqn:Hc.
  - rewrite (checksum_term c Hc) in H. cbn [bind] in H.
    destruct (IH _ H) as (x & Hin & Hx). exists x. split; [ right | ];
      assumption.
  - destruct (checksum_term_odd c Hc) as (Hterm & Hd & Ha).
    rewrite Hterm in H. cbn [bind] in H. exists c.
    repeat split; [ left; reflexivity | assumption | assumption | congruence ].
Qed.

Lemma compute_checksum_OK_plain (line : str) (v : Z) :
  compute_checksum line = OK v -> plain_line line = true.
Proof.
  intros H. unfold compute_checksum in H. apply bind_OK in H.
  destruct H as (t & Ht & _). rewrite slice_0 in Ht.
  exact (sum_terms_OK_plain _ _ _ Ht).
Qed.

(** X1: on a string of the characters U+0000 to U+00FF,
    [compute_checksum] returns a number from 0 to 9, and it raises only on a
    line with a superscript digit among its first 68 characters, the
    [ValueError] of [int] on that character. *)
Theorem compute_checksum_outcome (line : str) :
  (forall v, compute_checksum line = OK v ->
     0 <= v <= 9 /\ plain_line line = true) /\
  (forall e, compute_checksum line = Error e ->
     exists c, In c (firstn 68 line) /\ char_isdigit c = true /\
               is_ascii_digit c = false /\
               e = Raise ValueError (BadIntLiteral [c])).
Proof.
  split.
  - intros v H. pose proof (compute_checksum_OK line v H) as Hv.
    pose proof (checksum_spec_range line). split; [ lia | ].
    exact (compute_checksum_OK_plain _ _ H).
  - intros e H. unfold compute_checksum in H. rewrite slice_0 in H.
    destruct (sum_terms (firstn 68 line) 0) as [t | e'] eqn:E;
      [ discriminate H | ].
    cbn [bind] in H. injection H as <-. exact (sum_terms_Error _ _ _ E).
Qed.

Lemma compute_checksum_outcome_witness :
  compute_checksum vanguard2 = OK 7 /\
  (0 <= 7 <= 9 /\ plain_line vanguard2 = true).
Proof.
  assert (H : compute_checksum vanguard2 = OK 7) by reflexivity.
  split; [ exact H | ].
  exact (proj1 (compute_checksum_outcome vanguard2) 7 H).
Defined.

(** ** What [verify_checksum] accepts *)

Lemma firstn_68_of_69 (line : str) :
  plain69 line = true -> plain_line line = true.
Proof.
  unfold plain69, plain_line. intros H.
  replace (firstn 68 line) with (firstn 68 (firstn 69 line))
    by (rewrite firstn_firstn; reflexivity).
  rewrite <- (firstn_skipn 68 (firstn 69 line)) in H.
  rewrite forallb_app in H. apply andb_true_iff in H. exact (proj1 H).
Qed.

Lemma plain69_checksum_char (line : str) (d : ascii) :
  plain69 line = true -> nth_error line 68 = Some d -> plain_char d = true.
Proof.
  unfold plain69. intros H Hd.
  assert (Hin : In d (firstn 69 line)).
  { apply (nth_error_In _ 68). rewrite nth_error_firstn.
    replace (68 <? 69)%nat with true by reflexivity. exact Hd. }
  rewrite forallb_forall in H. exact (H d Hin).
Qed.

Lemma slice_past_end {A} (s : list A) (i : nat) :
  nth_error s i = None -> slice s i (S i) = [].
Proof.
  intros H. apply nth_error_None in H. unfold slice.
  rewrite skipn_all2 by exact H. apply firstn_nil.
Qed.

(** One line of the loop of [verify_checksum]. *)
Lemma verify_checksum_step (line : str) (rest : list str) :
  plain69 line = true ->
  (checksum_agrees line = true ->
   verify_checksum (line :: rest) = verify_checksum rest) /\
  (checksum_agrees line = false ->
   is_error (verify_checksum (line :: rest)) = true).
Proof.
  intros Hp. unfold checksum_agrees. cbn [verify_checksum].
  destruct (nth_error line 68) as [d |] eqn:Hd.
  - rewrite (slice_nth line 68 d Hd).
    pose proof (plain69_checksum_char line d Hp Hd) as Hpd.
    destruct (is_ascii_digit d) eqn:Hdig.
    + assert (Hisd : isdigit [d] = true).
      { unfold isdigit, char_isdigit. simpl. rewrite Hdig. reflexivity. }
      rewrite Hisd. cbn [negb]. rewrite (int_of_digit d Hdig). cbn [bind].
      rewrite (compute_checksum_sum line (firstn_68_of_69 line Hp)).
      cbn [bind]. split; intros H; rewrite H; reflexivity.
    + assert (Hisd : isdigit [d] = false).
      { unfold plain_char in Hpd. rewrite Hdig in Hpd.
        unfold isdigit. simpl. destruct (char_isdigit d);
          [ discriminate Hpd | reflexivity ]. }
      rewrite Hisd. cbn [negb]. split; [ reflexivity | discriminate ].
  - rewrite (slice_past_end line 68 Hd). cbn [isdigit negb].
    split; [ reflexivity | discriminate ].
Qed.

Lemma verify_checksum_iff (lines : list str) :
  forallb plain69 lines = true ->
  (verify_checksum lines = OK tt <-> forallb checksum_agrees lines = true).
Proof.
  induction lines as [| line rest IH]; intros Hp.
  - split; reflexivity.
  - cbn [forallb] in *. apply andb_true_iff in Hp. destruct Hp as [Hl Hrest].
    destruct (verify_checksum_step line rest Hl) as [Hyes Hno].
    destruct (checksum_agrees line) eqn:E.
    + rewrite (Hyes eq_refl). cbn [andb]. exact (IH Hrest).
    + specialize (Hno eq_refl). cbn [andb]. split; [ | discriminate ].
      intros H. rewrite H in Hno. discriminate Hno.
Qed.

(** X2: on lines of the characters U+0000 to U+00FF with no superscript
    digit among their first 69, [verify_checksum] returns without raising
    exactly when every line either has no decimal digit as 69th character or
    has the checksum of its first 68 characters there. *)
Theorem verify_checksum_accepts (lines : list str) :
  forallb plain69 lines = true ->
  (verify_checksum lines = OK tt <-> forallb checksum_agrees lines = true).
Proof. exact (verify_checksum_iff lines). Qed.

Lemma verify_checksum_accepts_witness :
  forallb plain69 [vanguard1; vanguard2] = true /\
  (verify_checksum [vanguard1; vanguard2] = OK tt <->
   forallb checksum_agrees [vanguard1; vanguard2] = true).
Proof.
  split; [ reflexivity | ].
  exact (verify_checksum_accepts [vanguard1; vanguard2] eq_refl).
Defined.

(** ** One wrong digit *)


Lemma digit_value_inj (c d : ascii) :
  is_ascii_digit c = true -> is_ascii_digit d = true ->
  digit_value c = digit_value d -> c = d.
Proof.
  intros _ _ H. unfold digit_value, code in H.
  rewrite <- (ascii_nat_embedding c), <- (ascii_nat_embedding d).
  f_equal. lia.
Qed.








(** ** [fix_checksum] twice *)

Lemma fix_checksum_OK (line fixed : str) :
  fix_checksum line = OK fixed ->
  exists c,
    fixed = firstn 68 line ++ repeat " "%char (68 - length (firstn 68 line))
            ++ [c] /\
    is_ascii_digit c = true /\ digit_value c = checksum_spec line /\
    plain_line line = true.
Proof.
  unfold fix_checksum. intros H. apply bind_OK in H.
  destruct H as (cs & Hcs & H). injection H as <-.
  pose proof (compute_checksum_OK_plain _ _ Hcs) as Hp.
  apply compute_checksum_OK in Hcs. subst cs.
  destruct (str_of_digit _ (checksum_spec_range line)) as (c & Hstr & Hd & Hv).
  exists c. rewrite Hstr, slice_0. unfold ljust. rewrite <- app_assoc.
  repeat split; assumption.
Qed.

(** X4: [fix_checksum] changes nothing in a line it has fixed: applied to its
    own result it returns that result. *)
Theorem fix_checksum_idempotent (line fixed : str) :
  fix_checksum line = OK fixed -> fix_checksum fixed = OK fixed.
Proof.
  intros H. destruct (fix_checksum_OK line fixed H) as (c & -> & Hd & Hv & Hp).
  set (body := firstn 68 line ++ repeat " "%char (68 - length (firstn 68 line))).
  assert (Hlen : length body = 68%nat).
  { apply (ljust_length (firstn 68 line) 68). apply firstn_le_length. }
  change (fix_checksum (body ++ [c]) = OK (body ++ [c]))
    || (rewrite app_assoc; fold body).
  assert (Hplain : plain_line (body ++ [c]) = true).
  { unfold plain_line. rewrite (firstn_68_fixed body c Hlen). unfold body.
    rewrite forallb_app, forallb_blanks, andb_true_r. exact Hp. }
  assert (Hsame : checksum_spec (body ++ [c]) = checksum_spec line).
  { unfold checksum_spec. rewrite (firstn_68_fixed body c Hlen). unfold body.
    rewrite sum_values_app, sum_values_blanks, Z.add_0_r. reflexivity. }
  unfold fix_checksum. rewrite (compute_checksum_sum _ Hplain). cbn [bind].
  rewrite slice_0, (firstn_68_fixed body c Hlen). unfold ljust.
  rewrite Hlen, Nat.sub_diag. cbn [repeat]. rewrite app_nil_r.
  rewrite Hsame, <- Hv.
  destruct (str_of_digit (digit_value c)) as (c' & Hstr & Hd' & Hv');
    [ rewrite Hv; apply checksum_spec_range | ].
  rewrite Hstr. rewrite (digit_value_inj c' c Hd' Hd Hv'). reflexivity.
Qed.

Lemma fix_checksum_idempotent_witness :
  fix_checksum (L "2 00005  34.2682 348.7242 1859667") =
    OK (L "2 00005  34.2682 348.7242 1859667                                   4") /\
  fix_checksum (L "2 00005  34.2682 348.7242 1859667                                   4") =
    OK (L "2 00005  34.2682 348.7242 1859667                                   4").
Proof.
  assert (H : fix_checksum (L "2 00005  34.2682 348.7242 1859667") =
    OK (L "2 00005  34.2682 348.7242 1859667                                   4"))
    by reflexivity.
  split; [ exact H | ].
  exact (fix_checksum_idempotent _ _ H).
Defined.

(* ================================================================== *)
(** * More on the parser *)
(* ================================================================== *)

(** What an accepted first line has stored. *)
Lemma read_line1_OK (longstr1 : str) (r1 : Line1) :
  read_line1 longstr1 = OK r1 ->
  line1_matches (rstrip longstr1) = true /\
  int_of_str (slice (rstrip longstr1) 2 7) = OK (l1_satnum r1) /\
  l1_classification r1 = str_or (at_ (rstrip longstr1) 7) (L "U") /\
  l1_intldesg r1 = slice (rstrip longstr1) 9 17 /\
  int_of_str (slice (rstrip longstr1) 18 20) = OK (l1_two_digit_year r1) /\
  int_of_str (slice (rstrip longstr1) 64 68) = OK (l1_elnum r1).
Proof.
  unfold read_line1.
  destruct (line1_matches (rstrip longstr1)); [ | discriminate ].
  intros H. apply bind_OK in H. destruct H as (sn & Hsn & H).
  apply bind_OK in H. destruct H as (yy & Hyy & H).
  apply bind_OK in H. destruct H as (ed & _ & H).
  apply bind_OK in H. destruct H as (nd & _ & H).
  apply bind_OK in H. destruct H as (ndd & _ & H).
  apply bind_OK in H. destruct H as (nexp & _ & H).
  apply bind_OK in H. destruct H as (bs & _ & H).
  apply bind_OK in H. destruct H as (ib & _ & H).
  apply bind_OK in H. destruct H as (el & Hel & H).
  injection H as <-. repeat split; assumption.
Qed.

Lemma line1_matches_length (line : str) :
  line1_matches line = true -> (64 <= length line)%nat.
Proof.
  unfold line1_matches. intros H.
  repeat (apply andb_true_iff in H; destruct H as [H _]).
  apply Nat.leb_le. exact H.
Qed.

Lemma line2_matches_length (line : str) :
  line2_matches line = true -> (69 <= length line)%nat.
Proof.
  unfold line2_matches. intros H.
  repeat (apply andb_true_iff in H; destruct H as [H _]).
  apply Nat.leb_le. exact H.
Qed.

Lemma rstrip_length (s : str) : (length (rstrip s) <= length s)%nat.
Proof.
  destruct (rstrip_prefix s) as [t Ht]. rewrite Ht at 2.
  rewrite length_app. lia.
Qed.

Lemma slice_length {A} (s : list A) (i k : nat) :
  (k <= length s)%nat -> length (slice s i k) = (k - i)%nat.
Proof.
  intros H. unfold slice. rewrite length_firstn, length_skipn. lia.
Qed.

(** ** Whitespace at the end of a line *)

(** What [rstrip] returns does not end in whitespace. *)
Lemma rstrip_last (s : str) (i : nat) (c : ascii) :
  nth_error (rstrip s) i = Some c -> length (rstrip s) = S i ->
  char_isspace c = false.
Proof.
  revert i. induction s as [| x s IH]; intros i Hc Hlen; [ discriminate Hlen | ].
  cbn [rstrip] in Hc, Hlen. destruct (rstrip s) as [| y t] eqn:E.
  - destruct (char_isspace x) eqn:Hx; [ discriminate Hlen | ].
    destruct i as [| i]; [ | discriminate Hlen ].
    injection Hc as <-. exact Hx.
  - destruct i as [| i]; [ discriminate Hlen | ].
    apply (IH i); [ exact Hc | ].
    cbn [length] in Hlen |- *. lia.
Qed.

Lemma rstrip_spaces (w : str) :
  forallb char_isspace w = true -> rstrip w = [].
Proof.
  induction w as [| c w IH]; intros H; [ reflexivity | ].
  cbn [forallb] in H. apply andb_true_iff in H. destruct H as [Hc Hw].
  cbn [rstrip]. rewrite (IH Hw), Hc. reflexivity.
Qed.

Lemma rstrip_app_spaces (s w : str) :
  forallb char_isspace w = true -> rstrip (s ++ w) = rstrip s.
Proof.
  intros H. induction s as [| c s IH].
  - cbn [app]. rewrite (rstrip_spaces w H). reflexivity.
  - cbn [app rstrip]. rewrite IH. reflexivity.
Qed.

Lemma rstrip_nil_spaces (w : str) :
  rstrip w = [] -> forallb char_isspace w = true.
Proof.
  induction w as [| c w IH]; intros H; [ reflexivity | ].
  cbn [rstrip] in H. destruct (rstrip w) as [| x xs] eqn:E;
    [ | discriminate H ].
  destruct (char_isspace c) eqn:Hc; [ | discriminate H ].
  cbn [forallb]. rewrite Hc. exact (IH eq_refl).
Qed.

(** [rstrip] keeps what stands before text it does not remove entirely. *)
Lemma rstrip_app_kept (u v : str) :
  rstrip v <> [] -> rstrip (u ++ v) = u ++ rstrip v.
Proof.
  intros Hv. induction u as [| c u IH]; [ reflexivity | ].
  cbn [app rstrip]. rewrite IH.
  destruct (u ++ rstrip v) as [| x xs] eqn:E; [ | reflexivity ].
  exfalso. apply app_eq_nil in E. exact (Hv (proj2 E)).
Qed.

Section MoreParser.

Variable env : Env.

(** X5: whitespace at the end of either line does not count: [twoline2rv]
    returns the same entity, or raises the same error, with and without
    it. *)
Theorem trailing_whitespace_ignored (longstr1 longstr2 w1 w2 : str)
    (g : EarthGravity) (mode : bool) :
  forallb char_isspace w1 = true -> forallb char_isspace w2 = true ->
  twoline2rv env (longstr1 ++ w1) (longstr2 ++ w2) g mode =
  twoline2rv env longstr1 longstr2 g mode.
Proof.
  intros H1 H2. unfold twoline2rv, read_line1, read_line2.
  rewrite (rstrip_app_spaces longstr1 w1 H1),
          (rstrip_app_spaces longstr2 w2 H2).
  reflexivity.
Qed.

(** X6: two lines that each read well but carry different satellite numbers
    are refused with the error "Object numbers in lines 1 and 2 do not
    match", before the rest of line 2 is read. *)
Theorem satellite_numbers_differ (longstr1 longstr2 : str) (g : EarthGravity)
    (mode : bool) (r1 : Line1) (n : Z) :
  read_line1 longstr1 = OK r1 ->
  line2_matches (rstrip longstr2) = true ->
  int_of_str (slice (rstrip longstr2) 2 7) = OK n ->
  n <> l1_satnum r1 ->
  twoline2rv env longstr1 longstr2 g mode =
    Error (Raise ValueError
             (Text (L "Object numbers in lines 1 and 2 do not match"))).
Proof.
  intros H1 Hm Hn Hne. unfold twoline2rv. rewrite H1. cbn [bind].
  unfold read_line2. rewrite Hm, Hn. cbn [bind].
  replace (l1_satnum r1 =? n) with false
    by (symmetry; apply Z.eqb_neq; congruence).
  reflexivity.
Qed.

(** X7: a first line of fewer than 65 characters is refused with the format
    error for line 1: the condition asks for 64, but at exactly 64 the last
    one, at position 63, would have to be the blank that [rstrip] has
    removed. After a first line that reads well, a second line of fewer than
    69 characters, for instance one without its checksum, is refused with
    the format error for line 2. *)
Theorem short_lines_refused (longstr1 longstr2 : str) (g : EarthGravity)
    (mode : bool) :
  ((length longstr1 < 65)%nat ->
   twoline2rv env longstr1 longstr2 g mode =
     Error (Raise ValueError (Text (error_message 1 LINE1 (rstrip longstr1)))))
  /\
  (forall r1, read_line1 longstr1 = OK r1 -> (length longstr2 < 69)%nat ->
   twoline2rv env longstr1 longstr2 g mode =
     Error (Raise ValueError (Text (error_message 2 LINE2 (rstrip longstr2))))).
Proof.
  split.
  - intros Hlen. unfold twoline2rv, read_line1.
    destruct (line1_matches (rstrip longstr1)) eqn:E; [ | reflexivity ].
    pose proof (line1_matches_length _ E) as H64.
    pose proof (rstrip_length longstr1) as Hle.
    unfold line1_matches in E. apply andb_true_iff in E.
    destruct E as [_ E63]. apply char_is_nth in E63.
    assert (Hlast : length (rstrip longstr1) = 64%nat) by lia.
    pose proof (rstrip_last longstr1 63 " " E63 Hlast) as Hsp.
    discriminate Hsp.
  - intros r1 H1 Hlen. unfold twoline2rv. rewrite H1. cbn [bind].
    unfold read_line2.
    destruct (line2_matches (rstrip longstr2)) eqn:E; [ | reflexivity ].
    apply line2_matches_length in E.
    pose proof (rstrip_length longstr2). lia.
Qed.

End MoreParser.

(** ** Columns the parser does not read *)

Lemma slice_off {A} (u w : list A) (c c' : A) (i k : nat) :
  (k <= length u \/ length u < i)%nat ->
  slice (u ++ c :: w) i k = slice (u ++ c' :: w) i k.
Proof.
  intros [H | H].
  - rewrite !slice_app_l by exact H. reflexivity.
  - unfold slice. rewrite !skipn_app, !skipn_all2 by lia.
    destruct (i - length u)%nat as [| j] eqn:E; [ lia | reflexivity ].
Qed.

Lemma char_is_off (u w : str) (c c' : ascii) (i : nat) (x : ascii) :
  i <> length u ->
  char_is (u ++ c :: w) i x = char_is (u ++ c' :: w) i x.
Proof.
  intros H. unfold char_is.
  destruct (Nat.lt_ge_cases i (length u)) as [Hlt | Hge].
  - rewrite !nth_error_app1 by exact Hlt. reflexivity.
  - rewrite !nth_error_app2 by exact Hge.
    destruct (i - length u)%nat as [| j] eqn:E; [ lia | reflexivity ].
Qed.

Lemma line1_matches_off (u w : str) (c c' : ascii) :
  (length u = 17 \/ length u = 62)%nat ->
  line1_matches (u ++ c :: w) = line1_matches (u ++ c' :: w).
Proof.
  intros Hu. unfold line1_matches.
  rewrite !(startswith_app_l u) by (cbn; lia).
  rewrite !(char_is_off u w c c') by lia.
  rewrite !length_app. reflexivity.
Qed.

(** The line after [rstrip], when at least 64 characters are left. *)
Lemma rstrip_around (u v : str) (c : ascii) :
  (length u < 63)%nat -> (64 <= length (rstrip (u ++ c :: v)))%nat ->
  rstrip v <> [] /\ rstrip (u ++ c :: v) = u ++ c :: rstrip v.
Proof.
  intros Hu Hlen.
  assert (Hv : rstrip v <> []).
  { intros E. apply rstrip_nil_spaces in E.
    change (u ++ c :: v) with (u ++ [c] ++ v) in Hlen.
    rewrite app_assoc, (rstrip_app_spaces _ v E) in Hlen.
    pose proof (rstrip_length (u ++ [c])) as Hle.
    rewrite length_app in Hle. cbn [length] in Hle. lia. }
  split; [ exact Hv | ].
  rewrite rstrip_app_kept.
  - cbn [rstrip]. destruct (rstrip v); [ contradiction | reflexivity ].
  - cbn [rstrip]. destruct (rstrip v); [ contradiction | discriminate ].
Qed.

Lemma read_line1_unread (u v : str) (c c' : ascii) (r1 : Line1) :
  (length u = 17 \/ length u = 62)%nat ->
  read_line1 (u ++ c :: v) = OK r1 -> read_line1 (u ++ c' :: v) = OK r1.
Proof.
  intros Hu H.
  destruct (read_line1_OK _ _ H) as (Hm & _).
  pose proof (line1_matches_length _ Hm) as Hlen.
  destruct (rstrip_around u v c) as [Hv E]; [ lia | exact Hlen | ].
  assert (E' : rstrip (u ++ c' :: v) = u ++ c' :: rstrip v).
  { rewrite rstrip_app_kept.
    - cbn [rstrip]. destruct (rstrip v); [ contradiction | reflexivity ].
    - cbn [rstrip]. destruct (rstrip v); [ contradiction | discriminate ]. }
  unfold read_line1 in *. rewrite E in H. rewrite E'.
  rewrite (line1_matches_off u (rstrip v) c' c Hu).
  destruct (line1_matches (u ++ c :: rstrip v)); [ | discriminate H ].
  unfold at_.
  rewrite !(slice_off u (rstrip v) c' c) by lia.
  exact H.
Qed.

Section UnreadColumns.

Variable env : Env.

(** X8: the characters at positions 17 and 62 of line 1 (column 18, and the
    ephemeris type in column 63) are not read: whatever stands there,
    [twoline2rv] builds the same entity or none. *)
Theorem unread_columns (u v : str) (c c' : ascii) (longstr2 : str)
    (g : EarthGravity) (mode : bool) (sat : Satellite) :
  (length u = 17 \/ length u = 62)%nat ->
  (twoline2rv env (u ++ c :: v) longstr2 g mode = OK sat <->
   twoline2rv env (u ++ c' :: v) longstr2 g mode = OK sat).
Proof.
  intros Hu.
  assert (Hone : forall a b,
    twoline2rv env (u ++ a :: v) longstr2 g mode = OK sat ->
    twoline2rv env (u ++ b :: v) longstr2 g mode = OK sat).
  { intros a b H. unfold twoline2rv in *.
    apply bind_OK in H. destruct H as (r1 & H1 & H).
    rewrite (read_line1_unread u v a b r1 Hu H1). exact H. }
  split; apply Hone.
Qed.

(** X9: the entity of an accepted pair has for classification the one
    character at position 7 of line 1, a blank included (the default "U" is
    never used), and for international designator the eight characters at
    positions 9 to 16. *)
Theorem parsed_identity (longstr1 longstr2 : str) (g : EarthGravity)
    (mode : bool) (sat : Satellite) :
  twoline2rv env longstr1 longstr2 g mode = OK sat ->
  exists c d,
    nth_error (rstrip longstr1) 7 = Some c /\ classification sat = [c] /\
    intldesg sat = Some d /\ d = slice (rstrip longstr1) 9 17 /\
    length d = 8%nat.
Proof.
  intros H. apply twoline2rv_OK in H.
  destruct H as (r1 & r2 & p & q & H1 & _ & _ & _ & _ & _ & _ & _ & _ & _ &
                 _ & Hcls & Hdes & _).
  destruct (read_line1_OK _ _ H1) as (Hm & _ & Rcls & Rdes & _).
  pose proof (line1_matches_length _ Hm) as Hlen.
  destruct (nth_error (rstrip longstr1) 7) as [c |] eqn:Hc.
  - exists c, (slice (rstrip longstr1) 9 17).
    split; [ reflexivity | ]. split.
    + rewrite Hcls, Rcls. unfold at_. rewrite (slice_nth _ 7 c Hc).
      reflexivity.
    + rewrite Hdes, Rdes. repeat split. rewrite slice_length by lia.
      reflexivity.
  - apply nth_error_None in Hc. lia.
Qed.

End UnreadColumns.

Lemma trailing_whitespace_ignored_witness :
  twoline2rv sample_env (vanguard1 ++ L "  " ++ nl) (vanguard2 ++ nl)
    sample_gravity false
  = twoline2rv sample_env vanguard1 vanguard2 sample_gravity false.
Proof.
  apply (trailing_whitespace_ignored sample_env vanguard1 vanguard2
           (L "  " ++ nl) nl sample_gravity false); reflexivity.
Defined.

Lemma satellite_numbers_differ_witness :
  twoline2rv sample_env vanguard1 stranger2 sample_gravity false
  = Error (Raise ValueError
             (Text (L "Object numbers in lines 1 and 2 do not match"))).
Proof.
  lazymatch eval vm_compute in (read_line1 vanguard1) with
  | OK ?r =>
      apply (satellite_numbers_differ sample_env vanguard1 stranger2
               sample_gravity false r 6)
  end.
  - vm_compute. reflexivity.
  - vm_compute. reflexivity.
  - vm_compute. reflexivity.
  - intros E. vm_compute in E. discriminate E.
Defined.

Lemma short_lines_refused_witness :
  length (firstn 63 vanguard1 ++ L "4") = 64%nat /\
  twoline2rv sample_env (firstn 63 vanguard1 ++ L "4") vanguard2
    sample_gravity false
  = Error (Raise ValueError
             (Text (error_message 1 LINE1
                      (rstrip (firstn 63 vanguard1 ++ L "4"))))).
Proof.
  split; [ reflexivity | ].
  apply (proj1 (short_lines_refused sample_env (firstn 63 vanguard1 ++ L "4")
                  vanguard2 sample_gravity false)).
  cbn. lia.
Defined.

Lemma unread_columns_witness :
  exists sat,
    twoline2rv sample_env vanguard1 vanguard2 sample_gravity false = OK sat /\
    twoline2rv sample_env marked1 vanguard2 sample_gravity false = OK sat.
Proof.
  eexists. split; [ vm_compute; reflexivity | ].
  apply (proj1 (unread_columns sample_env (firstn 17 vanguard1)
                  (skipn 18 vanguard1) " " "X" vanguard2 sample_gravity false
                  _ (or_introl eq_refl))).
  vm_compute. reflexivity.
Defined.

Lemma parsed_identity_witness :
  exists sat,
    twoline2rv sample_env vanguard1 vanguard2 sample_gravity false = OK sat /\
    exists c d,
      nth_error (rstrip vanguard1) 7 = Some c /\ classification sat = [c] /\
      intldesg sat = Some d /\ d = slice (rstrip vanguard1) 9 17 /\
      length d = 8%nat.
Proof.
  eexists. split; [ vm_compute; reflexivity | ].
  apply (parsed_identity sample_env vanguard1 vanguard2 sample_gravity false).
  vm_compute. reflexivity.
Defined.

(** ** The window of epoch years *)

Lemma In_all_ascii (c : ascii) : In c all_ascii.
Proof.
  unfold all_ascii. rewrite <- (ascii_nat_embedding c).
  apply in_map, in_seq. pose proof (nat_ascii_bounded c). lia.
Qed.

Lemma two_chars_read_all :
  forallb (fun a => forallb (two_chars_read a) all_ascii) all_ascii = true.
Proof. vm_compute. reflexivity. Qed.

Lemma two_chars_range (x y : ascii) (v : Z) :
  int_of_str [x; y] = OK v -> -9 <= v <= 99.
Proof.
  intros H. pose proof two_chars_read_all as Hall.
  rewrite forallb_forall in Hall. specialize (Hall x (In_all_ascii x)).
  rewrite forallb_forall in Hall. specialize (Hall y (In_all_ascii y)).
  unfold two_chars_read in Hall. rewrite H in Hall.
  apply andb_true_iff in Hall. destruct Hall as [Hall _].
  apply andb_true_iff in Hall. destruct Hall as [Hlo Hhi].
  apply Z.leb_le in Hlo. apply Z.leb_le in Hhi. lia.
Qed.

Section EpochYear.

Variable env : Env.

(** X10: whatever columns 19-20 of line 1 hold, the epoch year of an accepted
    pair lies between 1957 and 2056, and the timestamp carries the same
    year. *)
Theorem epoch_year_window (longstr1 longstr2 : str) (g : EarthGravity)
    (mode : bool) (sat : Satellite) :
  twoline2rv env longstr1 longstr2 g mode = OK sat ->
  1957 <= epochyr sat <= 2056 /\ year (epoch sat) = epochyr sat.
Proof.
  intros H. apply twoline2rv_OK in H.
  destruct H as (r1 & r2 & p & q & H1 & _ & _ & _ & Hyr & Hep & _).
  destruct (read_line1_OK _ _ H1) as (Hm & _ & _ & _ & Hyy & _).
  pose proof (line1_matches_length _ Hm) as Hlen.
  assert (Hl : length (slice (rstrip longstr1) 18 20) = 2%nat)
    by (rewrite slice_length by lia; reflexivity).
  destruct (slice (rstrip longstr1) 18 20) as [| x [| y [| z t]]];
    try discriminate Hl.
  apply two_chars_range in Hyy.
  rewrite Hyr, Hep. split; [ | reflexivity ].
  unfold four_digit_year.
  destruct (l1_two_digit_year r1 <? 57) eqn:E;
    [ apply Z.ltb_lt in E | apply Z.ltb_ge in E ]; lia.
Qed.

End EpochYear.

Lemma epoch_year_window_witness :
  exists sat,
    twoline2rv sample_env sl12_1 sl12_2 sample_gravity false = OK sat /\
    (1957 <= epochyr sat <= 2056 /\ year (epoch sat) = epochyr sat).
Proof.
  eexists. split; [ vm_compute; reflexivity | ].
  apply (epoch_year_window sample_env sl12_1 sl12_2 sample_gravity false).
  vm_compute. reflexivity.
Defined.

(* ================================================================== *)
(** * Propagation *)
(* ================================================================== *)

Lemma fsub_diag (x : float) : is_finite x = true -> fsub x x = f0.
Proof.
  destruct x as [s | s | | s m e]; try discriminate; intros _.
  - destruct s; reflexivity.
  - unfold fsub, SFsub. rewrite Z.sub_diag. reflexivity.
Qed.

Lemma fsub_diag_nan (x : float) : is_finite x = false -> fsub x x = S754_nan.
Proof.
  destruct x as [s | s | | s m e]; try discriminate; intros _.
  - destruct s; reflexivity.
  - reflexivity.
Qed.

Section Propagation.

Variable env : Env.
Variables P V : Type.
Variable sgp4 : Satellite -> float -> P * V.

(** The Julian date the constructor stores. *)
Lemma Satellite__init___jdsatepoch
    (g : EarthGravity) (sn : Z) (ep : datetime)
    (bs inc nod ecc arg m0 n0 nd ndd : float)
    (cls : str) (des : option str) (el rev : Z) (mode : bool)
    (sat : Satellite) :
  Satellite__init__ env g sn ep bs inc nod ecc arg m0 n0 nd ndd cls des el rev
    mode = OK sat ->
  jdsatepoch sat =
    jday env (year ep) (month ep) (day ep) (hour ep) (minute ep)
      (fadd (F (second ep))
            (fmul (float_of_decimal false 1 (-6)) (F (microsecond ep)))).
Proof.
  unfold Satellite__init__. intros H.
  apply bind_OK in H. destruct H as (a0 & Hpow & H).
  match type of H with OK ?built = _ =>
    assert (E : sat = built) by congruence end.
  clear H. subst sat. reflexivity.
Qed.

(** X11: propagating an entity to the moment of its own epoch, given as the
    constructor hands it to [jday], calls [sgp4] with 0.0 minutes when the
    Julian date of the epoch is a finite float, and with a NaN when it is
    not. *)
Theorem propagate_at_epoch
    (g : EarthGravity) (sn : Z) (ep : datetime)
    (bs inc nod ecc arg m0 n0 nd ndd : float)
    (cls : str) (des : option str) (el rev : Z) (mode : bool)
    (sat : Satellite) :
  Satellite__init__ env g sn ep bs inc nod ecc arg m0 n0 nd ndd cls des el rev
    mode = OK sat ->
  propagate env sgp4 sat (year ep) (month ep) (day ep) (hour ep) (minute ep)
    (fadd (F (second ep))
          (fmul (float_of_decimal false 1 (-6)) (F (microsecond ep))))
  = sgp4 sat (if is_finite (jdsatepoch sat) then f0 else S754_nan).
Proof.
  intros H. apply Satellite__init___jdsatepoch in H.
  unfold propagate. rewrite <- H.
  destruct (is_finite (jdsatepoch sat)) eqn:Hfin.
  - rewrite (fsub_diag _ Hfin).
    change (fmul f0 minutes_per_day) with f0.
    destruct (sgp4 sat f0); reflexivity.
  - rewrite (fsub_diag_nan _ Hfin).
    change (fmul S754_nan minutes_per_day) with S754_nan.
    destruct (sgp4 sat S754_nan); reflexivity.
Qed.

End Propagation.

Lemma propagate_at_epoch_witness :
  exists sat, sl12_entity = OK sat /\
    propagate sample_env (fun s m => (m, jdsatepoch s)) sat 2005 12 29 19 0
      (fadd (F 0) (fmul (float_of_decimal false 1 (-6)) (F 288)))
    = (f0, jdsatepoch sat).
Proof.
  eexists. split; [ vm_compute; reflexivity | ].
  apply (propagate_at_epoch sample_env float float
           (fun s m => (m, jdsatepoch s)) sample_gravity 20413 sl12_epoch f0
           sl12_inclo sl12_nodeo sl12_ecco sl12_argpo sl12_mo sl12_no_kozai
           f0 f0 (L "U") (Some (L "83020D  ")) 704 797 false).
  vm_compute. reflexivity.
Defined.

(* ================================================================== *)
(** * The checksum the formatter writes *)
(* ================================================================== *)

Lemma flat_blank : flat (map (fun c => [c]) (repeat " "%char 69)).
Proof.
  apply Forall_forall. intros e He. apply in_map_iff in He.
  destruct He as (c & <- & _). reflexivity.
Qed.

Lemma flat_set_slice (lst : list str) (i k : nat) (s : str) :
  flat lst -> flat (set_slice lst i k s).
Proof.
  intros Hall. unfold set_slice, flat. apply Forall_app.
  split; [ apply (Forall_firstn_skipn _ _ _ Hall) | ].
  apply Forall_app. split; [ | apply (Forall_firstn_skipn _ _ _ Hall) ].
  apply Forall_forall. intros e He. apply in_map_iff in He.
  destruct He as (c & <- & _). reflexivity.
Qed.

Lemma flat_set_item (lst lst' : list str) (i : nat) (v : str) :
  flat lst -> length v = 1%nat -> set_item lst i v = OK lst' -> flat lst'.
Proof.
  intros Hall Hv H. unfold set_item in H.
  destruct (i <? length lst)%nat; [ | discriminate H ].
  apply OK_inj in H. subst lst'. unfold flat. apply Forall_app.
  split; [ apply (Forall_firstn_skipn _ _ _ Hall) | ].
  apply Forall_app. split; [ | apply (Forall_firstn_skipn _ _ _ Hall) ].
  constructor; [ exact Hv | constructor ].
Qed.

Lemma flat_join_length (lst : list str) :
  flat lst -> length (join lst) = length lst.
Proof.
  unfold join. induction 1 as [| e lst He Hall IH]; [ reflexivity | ].
  cbn [concat length]. rewrite length_app, IH, He. reflexivity.
Qed.

Lemma join_around (a b : list str) (v : str) :
  join (a ++ [v] ++ b) = join a ++ v ++ join b.
Proof. unfold join. rewrite !concat_app. cbn. rewrite app_nil_r. reflexivity. Qed.

Lemma char_isdigit_ascii (d : ascii) :
  is_ascii_digit d = true -> isdigit [d] = true.
Proof.
  intros H. unfold isdigit, forallb, char_isdigit. rewrite H. reflexivity.
Qed.

(** The last two statements for a line: the checksum of the joined list goes
    into element 68. When every element is a single character, the line that
    results passes [verify_checksum], which finds a digit in column 69. *)
Lemma checksum_written (lst lst' : list str) (cs : Z) :
  flat lst -> compute_checksum (join lst) = OK cs ->
  set_item lst 68 (str_of_int cs) = OK lst' ->
  verify_checksum [join lst'] = OK tt /\
  isdigit (slice (join lst') 68 69) = true.
Proof.
  intros Hflat Hcs Hset.
  pose proof (compute_checksum_OK _ _ Hcs) as E.
  destruct (str_of_digit cs) as (d & Hd & Hdig & Hval);
    [ rewrite E; apply checksum_spec_range | ].
  unfold set_item in Hset.
  destruct (68 <? length lst)%nat eqn:Hlt; [ | discriminate Hset ].
  apply Nat.ltb_lt in Hlt. apply OK_inj in Hset. subst lst'. rewrite Hd.
  destruct (Forall_firstn_skipn _ 68 _ Hflat) as [Hfirst _].
  pose proof (flat_join_length _ Hfirst) as Hlen.
  unfold str in *. rewrite length_firstn in Hlen.
  rewrite Nat.min_l in Hlen by lia.
  rewrite !join_around.
  assert (Enth : nth_error (join (firstn 68 lst) ++ [d] ++ join (skipn 69 lst))
                   68 = Some d).
  { rewrite nth_error_app2 by lia. rewrite Hlen, Nat.sub_diag. reflexivity. }
  assert (Ecs : compute_checksum
                  (join (firstn 68 lst) ++ [d] ++ join (skipn 69 lst))
                = OK cs).
  { rewrite <- Hcs. rewrite <- (firstn_skipn 68 lst) at 3.
    unfold join at 3. rewrite concat_app. unfold compute_checksum.
    rewrite !slice_app_l by (unfold join in Hlen; unfold join; lia).
    reflexivity. }
  rewrite (slice_nth _ 68 d Enth).
  split; [ | apply char_isdigit_ascii; exact Hdig ].
  unfold verify_checksum. rewrite (slice_nth _ 68 d Enth).
  rewrite (char_isdigit_ascii d Hdig). cbn [negb].
  rewrite (int_of_digit d Hdig), Hval. cbn [bind]. rewrite Ecs. cbn [bind].
  rewrite Z.eqb_refl. reflexivity.
Qed.

Ltac solve_flat :=
  repeat first
    [ assumption
    | apply flat_set_slice
    | match goal with |- flat (if ?b then _ else _) => destruct b end ].

Section FormatterChecksum.

Variable env : Env.

Lemma rv2twoline_line2_verifies (satrec : Satellite) (out : str) :
  rv2twoline_line2 env satrec = OK out ->
  verify_checksum [out] = OK tt /\ isdigit (slice out 68 69) = true.
Proof.
  intros H. unfold rv2twoline_line2 in H. cbv zeta in H.
  apply bind_OK in H. destruct H as (la & Ha & H).
  assert (Fa : flat la)
    by (refine (flat_set_item _ _ _ _ flat_blank _ Ha); reflexivity).
  apply bind_OK in H. destruct H as (lg & _ & H).
  apply bind_OK in H. destruct H as (digits & _ & H).
  apply bind_OK in H. destruct H as (lb & Hb & H).
  assert (Fb : flat lb).
  { destruct (digits =? 2); [ apply OK_inj in Hb; subst lb; solve_flat | ].
    apply bind_OK in Hb. destruct Hb as (lg' & _ & Hb).
    apply bind_OK in Hb. destruct Hb as (digits' & _ & Hb).
    destruct (digits' =? 1); apply OK_inj in Hb; subst lb; solve_flat. }
  apply bind_OK in H. destruct H as (cs & Hcs & H).
  apply bind_OK in H. destruct H as (lc & Hc & H).
  apply OK_inj in H. subst out.
  refine (checksum_written _ _ cs _ Hcs Hc). solve_flat.
Qed.

Lemma rv2twoline_line1_verifies (satrec : Satellite) (out : str) :
  length (classification satrec) = 1%nat ->
  rv2twoline_line1 env satrec = OK out ->
  verify_checksum [out] = OK tt /\ isdigit (slice out 68 69) = true.
Proof.
  intros Hcls H. unfold rv2twoline_line1 in H. cbv zeta in H.
  apply bind_OK in H. destruct H as (la & Ha & H).
  assert (Fa : flat la)
    by (refine (flat_set_item _ _ _ _ flat_blank _ Ha); reflexivity).
  apply bind_OK in H. destruct H as (lb & Hb & H).
  assert (Fb : flat lb).
  { refine (flat_set_item _ _ _ _ _ Hcls Hb). solve_flat. }
  apply bind_OK in H. destruct H as (lc & Hc & H).
  assert (Fc : flat lc).
  { destruct (intldesg satrec); [ | discriminate Hc ].
    apply OK_inj in Hc. subst lc. solve_flat. }
  apply bind_OK in H. destruct H as (ld & Hd & H).
  assert (Fd : flat ld).
  { destruct (feq (nddot satrec) f0);
      [ apply OK_inj in Hd; subst ld; solve_flat | ].
    apply bind_OK in Hd. destruct Hd as (lg & _ & Hd).
    apply bind_OK in Hd. destruct Hd as (nexp & _ & Hd).
    apply bind_OK in Hd. destruct Hd as (lg' & _ & Hd).
    apply bind_OK in Hd. destruct Hd as (frac & _ & Hd).
    apply bind_OK in Hd. destruct Hd as (lst & Hs & Hd).
    apply OK_inj in Hd. subst ld.
    assert (Fs : flat lst).
    { refine (flat_set_item _ _ _ _ _ _ Hs); [ solve_flat | ].
      match goal with |- length (if ?b then _ else _) = _ => destruct b end;
        reflexivity. }
    solve_flat. }
  apply bind_OK in H. destruct H as (le & He & H).
  assert (Fe : flat le).
  { destruct (feq (bstar satrec) f0);
      [ apply OK_inj in He; subst le; solve_flat | ].
    apply bind_OK in He. destruct He as (lg & _ & He).
    apply bind_OK in He. destruct He as (ibexp & _ & He).
    apply bind_OK in He. destruct He as (lg' & _ & He).
    apply bind_OK in He. destruct He as (lg'' & _ & He).
    apply bind_OK in He. destruct He as (frac & _ & He).
    apply bind_OK in He. destruct He as (lst & Hs & He).
    apply OK_inj in He. subst le.
    assert (Fs : flat lst).
    { refine (flat_set_item _ _ _ _ _ _ Hs); [ solve_flat | ].
      match goal with |- length (if ?b then _ else _) = _ => destruct b end;
        reflexivity. }
    solve_flat. }
  apply bind_OK in H. destruct H as (lf & Hf & H).
  assert (Ff : flat lf)
    by (refine (flat_set_item _ _ _ _ Fe _ Hf); reflexivity).
  apply bind_OK in H. destruct H as (cs & Hcs & H).
  apply bind_OK in H. destruct H as (lg & Hg & H).
  apply OK_inj in H. subst out.
  refine (checksum_written _ _ cs _ Hcs Hg). solve_flat.
Qed.

(** X12: the two lines [rv2twoline] returns for an entity whose classification
    is a single character pass [verify_checksum], and each has a digit in
    column 69, so that neither is passed over. *)
Theorem formatted_lines_verify (satrec : Satellite) (line1 line2 : str) :
  rv2twoline env satrec = OK (line1, line2) ->
  length (classification satrec) = 1%nat ->
  verify_checksum [line1; line2] = OK tt /\
  isdigit (slice line1 68 69) = true /\ isdigit (slice line2 68 69) = true.
Proof.
  intros H Hcls. unfold rv2twoline in H.
  apply bind_OK in H. destruct H as (o1 & H1 & H).
  apply bind_OK in H. destruct H as (o2 & H2 & H).
  apply OK_inj in H.
  assert (E1 : o1 = line1) by congruence.
  assert (E2 : o2 = line2) by congruence.
  subst o1 o2. clear H.
  destruct (rv2twoline_line1_verifies _ _ Hcls H1) as [V1 D1].
  destruct (rv2twoline_line2_verifies _ _ H2) as [V2 D2].
  split; [ | split; assumption ].
  revert V1 V2. unfold verify_checksum. rewrite D1, D2. cbn [negb].
  destruct (int_of_str (slice line1 68 69)) as [c1 | e]; [ | discriminate ].
  cbn [bind].
  destruct (compute_checksum line1) as [k1 | e]; [ | discriminate ].
  cbn [bind].
  destruct (negb (c1 =? k1)); [ discriminate | ].
  intros _ V2. exact V2.
Qed.

End FormatterChecksum.

Lemma formatted_lines_verify_witness :
  exists sat line1 line2,
    sl12_entity = OK sat /\
    rv2twoline sample_env sat = OK (line1, line2) /\
    (verify_checksum [line1; line2] = OK tt /\
     isdigit (slice line1 68 69) = true /\ isdigit (slice line2 68 69) = true).
Proof.
  eexists. eexists. eexists.
  split; [ vm_compute; reflexivity | ].
  lazymatch goal with
  | |- rv2twoline ?e ?s = _ /\ _ =>
      let v := eval vm_compute in (rv2twoline e s) in
      lazymatch v with
      | OK (?o1, ?o2) =>
          split;
          [ vm_compute; reflexivity
          | apply (formatted_lines_verify e s o1 o2);
            vm_compute; reflexivity ]
      end
  end.
Defined.

(* ================================================================== *)
(** * The satellite number the formatter writes *)
(* ================================================================== *)

Lemma In_decimal_digits (d : Z) : 0 <= d <= 9 -> In d decimal_digits.
Proof.
  intros H.
  assert (E : d = 0 \/ d = 1 \/ d = 2 \/ d = 3 \/ d = 4 \/ d = 5 \/ d = 6 \/
              d = 7 \/ d = 8 \/ d = 9) by lia.
  unfold decimal_digits. cbn [In]. intuition auto.
Qed.

Lemma forallb5 {A} (l : list A) (f : A -> A -> A -> A -> A -> bool) :
  forallb (fun a => forallb (fun b => forallb (fun c => forallb (fun d =>
    forallb (fun e => f a b c d e) l) l) l) l) l = true ->
  forall a b c d e, In a l -> In b l -> In c l -> In d l -> In e l ->
  f a b c d e = true.
Proof.
  intros H a b c d e Ha Hb Hc Hd He.
  rewrite forallb_forall in H. specialize (H a Ha).
  rewrite forallb_forall in H. specialize (H b Hb).
  rewrite forallb_forall in H. specialize (H c Hc).
  rewrite forallb_forall in H. specialize (H d Hd).
  rewrite forallb_forall in H. exact (H e He).
Qed.

Lemma five_digits_read_all (a b c d e : Z) :
  In a decimal_digits -> In b decimal_digits -> In c decimal_digits ->
  In d decimal_digits -> In e decimal_digits ->
  five_digits_read (10000 * a + 1000 * b + 100 * c + 10 * d + e) = true.
Proof.
  revert a b c d e.
  apply (forallb5 decimal_digits
           (fun a b c d e =>
              five_digits_read
                (10000 * a + 1000 * b + 100 * c + 10 * d + e))).
  vm_compute. reflexivity.
Qed.

(** ["{:05d}".format(n)] for a number of at most five digits. *)
Lemma format_five_digits (n : Z) :
  0 <= n <= 99999 ->
  length (format_d "0" AlignSign 5 n) = 5%nat /\
  int_of_str (format_d "0" AlignSign 5 n) = OK n.
Proof.
  intros Hn.
  pose proof (Z.mod_pos_bound n 10000 ltac:(lia)) as B4.
  pose proof (Z.mod_pos_bound n 1000 ltac:(lia)) as B3.
  pose proof (Z.mod_pos_bound n 100 ltac:(lia)) as B2.
  pose proof (Z.mod_pos_bound n 10 ltac:(lia)) as B1.
  assert (D5 : 0 <= n / 10000 <= 9)
    by (split; [ apply Z.div_pos; lia
               | apply Z.lt_succ_r, Z.div_lt_upper_bound; lia ]).
  assert (D4 : 0 <= n mod 10000 / 1000 <= 9)
    by (split; [ apply Z.div_pos; lia
               | apply Z.lt_succ_r, Z.div_lt_upper_bound; lia ]).
  assert (D3 : 0 <= n mod 1000 / 100 <= 9)
    by (split; [ apply Z.div_pos; lia
               | apply Z.lt_succ_r, Z.div_lt_upper_bound; lia ]).
  assert (D2 : 0 <= n mod 100 / 10 <= 9)
    by (split; [ apply Z.div_pos; lia
               | apply Z.lt_succ_r, Z.div_lt_upper_bound; lia ]).
  assert (D1 : 0 <= n mod 10 <= 9) by lia.
  pose proof (five_digits_read_all _ _ _ _ _
                (In_decimal_digits _ D5) (In_decimal_digits _ D4)
                (In_decimal_digits _ D3) (In_decimal_digits _ D2)
                (In_decimal_digits _ D1)) as Hall.
  replace (10000 * (n / 10000) + 1000 * (n mod 10000 / 1000) +
           100 * (n mod 1000 / 100) + 10 * (n mod 100 / 10) + n mod 10)
    with n in Hall.
  - unfold five_digits_read in Hall.
    apply andb_true_iff in Hall. destruct Hall as [Hall Hint].
    apply andb_true_iff in Hall. destruct Hall as [Hlen _].
    apply Nat.eqb_eq in Hlen. split; [ exact Hlen | ].
    destruct (int_of_str (format_d "0" AlignSign 5 n)) as [m | e];
      [ | discriminate Hint ].
    apply Z.eqb_eq in Hint. rewrite Hint. reflexivity.
  - Z.to_euclidean_division_equations. lia.
Qed.

Lemma headed_length (h : str) (lst : list str) :
  headed h lst -> (7 <= length lst)%nat.
Proof.
  intros [Hh Hf]. apply (f_equal (@length _)) in Hf.
  rewrite length_map, length_firstn in Hf. unfold str in *. lia.
Qed.

Lemma headed_set_slice (h : str) (lst : list str) (i k : nat) (s : str) :
  (7 <= i)%nat -> headed h lst -> headed h (set_slice lst i k s).
Proof.
  intros Hi Hh. pose proof (headed_length _ _ Hh) as Hlen.
  destruct Hh as [Hh Hf]. split; [ exact Hh | ].
  unfold set_slice. rewrite firstn_app, firstn_firstn, length_firstn.
  replace (Nat.min 7 i) with 7%nat by lia.
  replace (7 - Nat.min i (length lst))%nat with 0%nat by lia.
  cbn [firstn]. rewrite app_nil_r. exact Hf.
Qed.

Lemma headed_set_item (h : str) (lst lst' : list str) (i : nat) (v : str) :
  (7 <= i)%nat -> headed h lst -> set_item lst i v = OK lst' -> headed h lst'.
Proof.
  intros Hi Hh H. pose proof (headed_length _ _ Hh) as Hlen.
  destruct Hh as [Hh Hf]. split; [ exact Hh | ].
  unfold set_item in H. destruct (i <? length lst)%nat; [ | discriminate H ].
  apply OK_inj in H. subst lst'.
  rewrite firstn_app, firstn_firstn, length_firstn.
  replace (Nat.min 7 i) with 7%nat by lia.
  replace (7 - Nat.min i (length lst))%nat with 0%nat by lia.
  cbn [firstn]. rewrite app_nil_r. exact Hf.
Qed.

(** The first two assignments of either line. *)
Lemma headed_start (k : Z) (c : ascii) (n : Z) (la : list str) :
  str_of_int k = [c] -> 0 <= n <= 99999 ->
  set_item (map (fun c => [c]) (repeat " "%char 69)) 0 (str_of_int k) = OK la ->
  headed (c :: " "%char :: format_d "0" AlignSign 5 n)
         (set_slice la 2 7 (format_d "0" AlignSign 5 n)).
Proof.
  intros Hk Hn Ha. rewrite Hk in Ha.
  destruct (format_five_digits n Hn) as [Hlen _].
  apply OK_inj in Ha. subst la.
  destruct (format_d "0" AlignSign 5 n) as [| c1 [| c2 [| c3 [| c4 [| c5 [| c6 t]]]]]];
    try discriminate Hlen.
  split; reflexivity.
Qed.

(** What a headed list gives once joined. *)
Lemma headed_join (c : ascii) (f : str) (n : Z) (lst : list str) :
  length f = 5%nat -> headed (c :: " "%char :: f) lst ->
  slice (join lst) 2 7 = f /\ startswith (join lst) [c; " "%char] = true.
Proof.
  intros Hlen [Hh Hf].
  rewrite <- (firstn_skipn 7 lst). unfold join. rewrite concat_app, Hf.
  change (concat (map (fun c0 => [c0]) (c :: " "%char :: f)))
    with (join (map (fun c0 => [c0]) (c :: " "%char :: f))).
  assert (Ej : forall s : str, join (map (fun c0 => [c0]) s) = s).
  { induction s as [| x s IH]; [ reflexivity | ].
    unfold join in *. cbn [map concat]. rewrite IH. reflexivity. }
  rewrite Ej.
  destruct f as [| c1 [| c2 [| c3 [| c4 [| c5 [| c6 t]]]]]];
    try discriminate Hlen.
  split; [ reflexivity | ].
  unfold startswith. cbn [length firstn app].
  unfold str_eqb. destruct (list_eq_dec ascii_dec [c; " "%char] [c; " "%char]);
    [ reflexivity | contradiction ].
Qed.

Ltac solve_headed :=
  repeat first
    [ assumption
    | apply headed_set_slice; [ lia | ]
    | match goal with |- headed _ (if ?b then _ else _) => destruct b end ].

Section FormatterNumber.

Variable env : Env.

Lemma rv2twoline_line2_number (satrec : Satellite) (out : str) :
  0 <= satnum satrec <= 99999 ->
  rv2twoline_line2 env satrec = OK out ->
  int_of_str (slice out 2 7) = OK (satnum satrec) /\
  startswith out (L "2 ") = true.
Proof.
  intros Hn H. unfold rv2twoline_line2 in H. cbv zeta in H.
  apply bind_OK in H. destruct H as (la & Ha & H).
  pose proof (headed_start 2 "2" _ la eq_refl Hn Ha) as Fa.
  destruct (format_five_digits _ Hn) as [Hlen Hint].
  apply bind_OK in H. destruct H as (lg & _ & H).
  apply bind_OK in H. destruct H as (digits & _ & H).
  apply bind_OK in H. destruct H as (lb & Hb & H).
  assert (Fb : headed ("2"%char :: " "%char ::
                       format_d "0" AlignSign 5 (satnum satrec)) lb).
  { destruct (digits =? 2); [ apply OK_inj in Hb; subst lb; solve_headed | ].
    apply bind_OK in Hb. destruct Hb as (lg' & _ & Hb).
    apply bind_OK in Hb. destruct Hb as (digits' & _ & Hb).
    destruct (digits' =? 1); apply OK_inj in Hb; subst lb; solve_headed. }
  apply bind_OK in H. destruct H as (cs & Hcs & H).
  apply bind_OK in H. destruct H as (lc & Hc & H).
  apply OK_inj in H. subst out.
  destruct (headed_join "2" _ (satnum satrec) lc Hlen) as [Es Ep].
  { refine (headed_set_item _ _ _ _ _ _ _ Hc); [ lia | solve_headed ]. }
  rewrite Es. split; [ exact Hint | exact Ep ].
Qed.

Lemma rv2twoline_line1_number (satrec : Satellite) (out : str) :
  0 <= satnum satrec <= 99999 ->
  rv2twoline_line1 env satrec = OK out ->
  int_of_str (slice out 2 7) = OK (satnum satrec) /\
  startswith out (L "1 ") = true.
Proof.
  intros Hn H. unfold rv2twoline_line1 in H. cbv zeta in H.
  apply bind_OK in H. destruct H as (la & Ha & H).
  pose proof (headed_start 1 "1" _ la eq_refl Hn Ha) as Fa.
  destruct (format_five_digits _ Hn) as [Hlen Hint].
  apply bind_OK in H. destruct H as (lb & Hb & H).
  pose proof (headed_set_item _ _ _ _ _ (Nat.le_refl 7) Fa Hb) as Fb.
  apply bind_OK in H. destruct H as (lc & Hc & H).
  assert (Fc : headed ("1"%char :: " "%char ::
                       format_d "0" AlignSign 5 (satnum satrec)) lc).
  { destruct (intldesg satrec); [ | discriminate Hc ].
    apply OK_inj in Hc. subst lc. solve_headed. }
  apply bind_OK in H. destruct H as (ld & Hd & H).
  assert (Fd : headed ("1"%char :: " "%char ::
                       format_d "0" AlignSign 5 (satnum satrec)) ld).
  { destruct (feq (nddot satrec) f0);
      [ apply OK_inj in Hd; subst ld; solve_headed | ].
    apply bind_OK in Hd. destruct Hd as (lg & _ & Hd).
    apply bind_OK in Hd. destruct Hd as (nexp & _ & Hd).
    apply bind_OK in Hd. destruct Hd as (lg' & _ & Hd).
    apply bind_OK in Hd. destruct Hd as (frac & _ & Hd).
    apply bind_OK in Hd. destruct Hd as (lst & Hs & Hd).
    apply OK_inj in Hd. subst ld.
    assert (Fs : headed ("1"%char :: " "%char ::
                         format_d "0" AlignSign 5 (satnum satrec)) lst).
    { refine (headed_set_item _ _ _ _ _ _ _ Hs); [ lia | solve_headed ]. }
    solve_headed. }
  apply bind_OK in H. destruct H as (le & He & H).
  assert (Fe : headed ("1"%char :: " "%char ::
                       format_d "0" AlignSign 5 (satnum satrec)) le).
  { destruct (feq (bstar satrec) f0);
      [ apply OK_inj in He; subst le; solve_headed | ].
    apply bind_OK in He. destruct He as (lg & _ & He).
    apply bind_OK in He. destruct He as (ibexp & _ & He).
    apply bind_OK in He. destruct He as (lg' & _ & He).
    apply bind_OK in He. destruct He as (lg'' & _ & He).
    apply bind_OK in He. destruct He as (frac & _ & He).
    apply bind_OK in He. destruct He as (lst & Hs & He).
    apply OK_inj in He. subst le.
    assert (Fs : headed ("1"%char :: " "%char ::
                         format_d "0" AlignSign 5 (satnum satrec)) lst).
    { refine (headed_set_item _ _ _ _ _ _ _ Hs); [ lia | solve_headed ]. }
    solve_headed. }
  apply bind_OK in H. destruct H as (lf & Hf & H).
  assert (Ff : headed ("1"%char :: " "%char ::
                       format_d "0" AlignSign 5 (satnum satrec)) lf)
    by (refine (headed_set_item _ _ _ _ _ _ Fe Hf); lia).
  apply bind_OK in H. destruct H as (cs & Hcs & H).
  apply bind_OK in H. destruct H as (lg & Hg & H).
  apply OK_inj in H. subst out.
  destruct (headed_join "1" _ (satnum satrec) lg Hlen) as [Es Ep].
  { refine (headed_set_item _ _ _ _ _ _ _ Hg); [ lia | solve_headed ]. }
  rewrite Es. split; [ exact Hint | exact Ep ].
Qed.

(** X13: for an entity whose satellite number has at most five digits, the
    two lines [rv2twoline] returns begin with "1 " and "2 " and carry in
    columns 3-7 a field that [int] reads back as that number: the parser's
    comparison of the two object numbers cannot fail on them. *)
Theorem formatted_satellite_number (satrec : Satellite) (line1 line2 : str) :
  rv2twoline env satrec = OK (line1, line2) ->
  0 <= satnum satrec <= 99999 ->
  int_of_str (slice line1 2 7) = OK (satnum satrec) /\
  int_of_str (slice line2 2 7) = OK (satnum satrec) /\
  startswith line1 (L "1 ") = true /\ startswith line2 (L "2 ") = true.
Proof.
  intros H Hn. unfold rv2twoline in H.
  apply bind_OK in H. destruct H as (o1 & H1 & H).
  apply bind_OK in H. destruct H as (o2 & H2 & H).
  apply OK_inj in H.
  assert (E1 : o1 = line1) by congruence.
  assert (E2 : o2 = line2) by congruence.
  subst o1 o2. clear H.
  destruct (rv2twoline_line1_number _ _ Hn H1) as [N1 S1].
  destruct (rv2twoline_line2_number _ _ Hn H2) as [N2 S2].
  repeat split; assumption.
Qed.

End FormatterNumber.

Lemma formatted_satellite_number_witness :
  exists sat line1 line2,
    sl12_entity = OK sat /\
    rv2twoline sample_env sat = OK (line1, line2) /\
    (int_of_str (slice line1 2 7) = OK (satnum sat) /\
     int_of_str (slice line2 2 7) = OK (satnum sat) /\
     startswith line1 (L "1 ") = true /\ startswith line2 (L "2 ") = true).
Proof.
  eexists. eexists. eexists.
  split; [ vm_compute; reflexivity | ].
  lazymatch goal with
  | |- rv2twoline ?e ?s = _ /\ _ =>
      let v := eval vm_compute in (rv2twoline e s) in
      lazymatch v with
      | OK (?o1, ?o2) =>
          split;
          [ vm_compute; reflexivity
          | apply (formatted_satellite_number e s o1 o2);
            [ vm_compute; reflexivity
            | vm_compute; split; discriminate ] ]
      end
  end.
Defined.
